(** * ContestGuard relay server ([server/server.py]): a shallow embedding

    The server keeps one module-level dictionary [SESSIONS] and exposes nine
    Flask routes over it.  Every route handler is translated below as a
    function on an explicit registry state; the clock and the random
    generators the handlers consult are inputs of each call.  A call runs
    from its first statement to its response without another call in
    between. *)

From Stdlib Require Import ZArith Ascii String.
From stdpp Require Import gmap strings list fin_maps pretty.

#[local] Open Scope string_scope.
#[local] Open Scope Z_scope.

(** ** Python values

    The values that reach the handlers are decoded JSON documents and the
    strings, integers and [None] the handlers build themselves.  A dictionary
    is a finite map on its string keys.  Numbers are the integers: a JSON
    number with a fraction or an exponent is not represented.  A character
    of a [string] is one of 256 codes, those from 128 on standing for the
    characters outside ASCII. *)

#[warnings="-register-all"]
Inductive pyval : Type :=
| PNone
| PBool (b : bool)
| PInt (z : Z)
| PStr (s : string)
| PList (l : list pyval)
| PDict (d : gmap string pyval).

(** Exceptions a handler can leave through: [abort(code, description=...)]
    and the three built-in errors the handlers' expressions can raise. *)
Inductive exn : Type :=
| HTTPException (code : Z) (description : string)
| KeyError (key : string)
| AttributeError
| TypeError.

Inductive result (A : Type) : Type :=
| Ret (a : A)
| Raise (e : exn).
Arguments Ret {A} a.
Arguments Raise {A} e.

#[global] Instance result_ret : MRet result := λ A a, Ret a.
#[global] Instance result_bind : MBind result := λ A B f m,
  match m with
  | Ret a => f a
  | Raise e => Raise e
  end.

Definition abort {A : Type} (code : Z) (description : string) : result A :=
  Raise (HTTPException code description).

(** Truth value of an object, as [not x] and [x or y] test it. *)
Definition truthy (v : pyval) : bool :=
  match v with
  | PNone => false
  | PBool b => b
  | PInt z => negb (z =? 0)
  | PStr s => negb (String.eqb s "")
  | PList l => match l with [] => false | _ => true end
  | PDict d => match map_to_list d with [] => false | _ => true end
  end.

(** [x or y] when evaluating [y] cannot raise. *)
Definition py_or (x y : pyval) : pyval := if truthy x then x else y.

(** [x.get(key, default)]: only dictionaries have a [get] method. *)
Definition dict_get (x : pyval) (key : string) (dflt : pyval) : result pyval :=
  match x with
  | PDict d => Ret (default dflt (d !! key))
  | _ => Raise AttributeError
  end.

(** [x + 1] on the values a counter can hold ([bool] is a subclass of [int]). *)
Definition py_add1 (x : pyval) : result pyval :=
  match x with
  | PInt z => Ret (PInt (z + 1))
  | PBool b => Ret (PInt ((if b then 1 else 0) + 1))
  | _ => Raise TypeError
  end.

(** [len(x)]. *)
Definition py_len (x : pyval) : result Z :=
  match x with
  | PList l => Ret (Z.of_nat (length l))
  | PDict d => Ret (Z.of_nat (size d))
  | PStr s => Ret (Z.of_nat (String.length s))
  | _ => Raise TypeError
  end.

(** [l[-n:]]: the last [n] elements, the whole list when it is shorter. *)
Definition lastn {A : Type} (n : nat) (l : list A) : list A :=
  drop (length l - n) l.

(** [str.upper()] on ASCII text, which the text of a UUID is. *)
Definition upper_ascii (c : ascii) : ascii :=
  let n := N_of_ascii c in
  if ((97 <=? n) && (n <=? 122))%N then ascii_of_N (n - 32) else c.

Fixpoint upper (s : string) : string :=
  match s with
  | EmptyString => EmptyString
  | String c s' => String (upper_ascii c) (upper s')
  end.

Definition is_ascii (s : string) : bool :=
  forallb (λ c, (N_of_ascii c <? 128)%N) (list_ascii_of_string s).

(** [secrets.compare_digest] on two [str] arguments: a [TypeError] unless
    both are ASCII only, their equality otherwise. *)
Definition compare_digest (a b : string) : result bool :=
  if is_ascii a && is_ascii b then Ret (String.eqb a b) else Raise TypeError.

Abbreviation dict := (gmap string pyval).
Abbreviation registry := (gmap string (gmap string pyval)).

(** A dictionary display [{k1: v1, ...}] with distinct keys. *)
Definition dict_of (kvs : list (string * pyval)) : dict := list_to_map kvs.

(** ** Requests, responses and the environment of a call *)

(** What the handlers read of [flask.request]: the headers (under the
    spelling the handlers ask for), the query string, whether the content
    type is JSON, and the decoded body ([None] when the body is not a JSON
    document). *)
Record request : Type := Request {
  headers : gmap string string;
  args : gmap string string;
  is_json : bool;
  json_body : option pyval;
}.

(** [request.headers.get(name)]: the header's text or [None]. *)
Definition headers_get (req : request) (name : string) : pyval :=
  match headers req !! name with
  | Some v => PStr v
  | None => PNone
  end.

(** [request.args.get(name, "")]. *)
Definition args_get (req : request) (name : string) : pyval :=
  PStr (default "" (args req !! name)).

(** [request.get_json(silent=True)]: [None] instead of an error. *)
Definition get_json_silent (req : request) : pyval :=
  if is_json req then default PNone (json_body req) else PNone.

(** [request.json], which this program reads under [request.is_json] only:
    an undecodable body is Flask's 400. *)
Definition request_json (req : request) : result pyval :=
  match json_body req with
  | Some v => Ret v
  | None => abort 400 "Failed to decode JSON object"
  end.

(** The clock reading and the random draws of one call: the text of
    [now_iso()], of [str(uuid.uuid4())], of [secrets.token_hex(24)] and the
    number [secrets.randbelow(9000)]. *)
Record env : Type := Env {
  now_iso : string;
  uuid4 : string;
  token_hex : string;
  randbelow : Z;
}.

(** A response: its status code and, when it is a JSON response, its body. *)
Record response : Type := Response {
  status_code : Z;
  body : option pyval;
}.

Definition jsonify (d : dict) : response := Response 200 (Some (PDict d)).

(** ** Computations on the session record a handler holds

    [s = get_session(session_id)] binds [s] to the dictionary object stored
    in [SESSIONS]; the handler then reads and assigns the keys of that one
    object.  The statements after the binding are a state computation on the
    record, and an exception leaves the assignments made before it in
    place. *)
Definition SM (A : Type) : Type := dict → result A * dict.

#[global] Instance SM_ret : MRet SM := λ A a s, (Ret a, s).
#[global] Instance SM_bind : MBind SM := λ A B f m s,
  match m s with
  | (Ret a, s') => f a s'
  | (Raise e, s') => (Raise e, s')
  end.

(** A computation that only reads the record. *)
Definition reads {A : Type} (f : dict → result A) : SM A := λ s, (f s, s).

(** [s.get(key, default)]. *)
Definition get_or (key : string) (dflt : pyval) : SM pyval :=
  reads (λ s, Ret (default dflt (s !! key))).

(** [s[key] = v]. *)
Definition setitem (key : string) (v : pyval) : SM unit :=
  λ s, (Ret (), <[key := v]> s).

Definition lift {A : Type} (r : result A) : SM A := reads (λ _, r).

(** [s[key]] on a record given by value. *)
Definition item (s : dict) (key : string) : result pyval :=
  match s !! key with
  | Some v => Ret v
  | None => Raise (KeyError key)
  end.

Definition getitem (key : string) : SM pyval := reads (λ s, item s key).

Section Server.

(** [str(x)] of a list or a dictionary is Python's [repr] of it.  The
    handlers never look inside that text, they only compare it with a
    secret, so the development is parametric in it. *)
Variable container_repr : pyval → string.

(** [str(x)]. *)
Definition py_str (x : pyval) : string :=
  match x with
  | PStr s => s
  | PNone => "None"
  | PBool b => if b then "True" else "False"
  | PInt z => pretty z
  | PList _ | PDict _ => container_repr x
  end.

(** *** Helpers *)

(** [get_session(session_id)] followed by the rest of the handler, which
    runs on the record found; the record in [SESSIONS] is the object the
    handler assigned to. *)
Definition get_session {A : Type} (session_id : string) (rest : SM A)
    (SESSIONS : registry) : result A * registry :=
  match SESSIONS !! session_id with
  | Some s =>
      if negb (truthy (PDict s))
      then (abort 404 "Session not found", SESSIONS)
      else let '(r, s') := rest s in (r, <[session_id := s']> SESSIONS)
  | None => (abort 404 "Session not found", SESSIONS)
  end.

(** [require_admin(s)].  The conditional expression binds weaker than
    [or]: the token is [(header or body field) if request.is_json else
    query parameter]. *)
Definition require_admin (req : request) (s : dict) : result unit :=
  token ← (if is_json req
           then (if truthy (headers_get req "X-Admin-Token")
                 then Ret (headers_get req "X-Admin-Token")
                 else j ← request_json req;
                      dict_get j "admin_token" (PStr ""))
           else Ret (args_get req "admin_token"));
  expected ← item s "admin_token";
  same ← compare_digest (py_str token) (py_str expected);
  if negb same then abort 403 "Invalid admin token" else Ret ().

(** [require_code(s)]. *)
Definition require_code (req : request) (s : dict) : result unit :=
  let code := py_or (headers_get req "X-Session-Code") (args_get req "code") in
  expected ← item s "session_code";
  same ← compare_digest (py_str code) (py_str expected);
  if negb same then abort 403 "Invalid session code" else Ret ().

(** *** Routes *)

Definition health (e : env) (SESSIONS : registry) : result response * registry :=
  (Ret (jsonify (dict_of [("status", PStr "ok");
                          ("sessions", PInt (Z.of_nat (size SESSIONS)));
                          ("time", PStr (now_iso e))])),
   SESSIONS).

Definition create_session (req : request) (e : env) (SESSIONS : registry)
    : result response * registry :=
  let data := py_or (get_json_silent req) (PDict ∅) in
  let session_id := upper (substring 0 8 (uuid4 e)) in
  let admin_token := token_hex e in
  let session_code := pretty (randbelow e + 1000) in
  match dict_get data "contest_name" (PStr "Contest") with
  | Raise ex => (Raise ex, SESSIONS)
  | Ret contest_name =>
      (Ret (Response 201 (Some (PDict (dict_of
         [("session_id", PStr session_id);
          ("session_code", PStr session_code);
          ("admin_token", PStr admin_token);
          ("message", PStr "Session created. Share session_id + session_code with students via QR.")])))),
       <[session_id := dict_of
         [("session_id", PStr session_id);
          ("session_code", PStr session_code);
          ("admin_token", PStr admin_token);
          ("contest_name", contest_name);
          ("allowed_ips", PList []);
          ("status", PStr "active");
          ("created_at", PStr (now_iso e));
          ("ended_at", PNone);
          ("logs", PList []);
          ("student_count", PInt 0)]]> SESSIONS)
  end.

Definition set_ips (session_id : string) (req : request) (e : env)
    : registry → result response * registry :=
  get_session session_id (
    let data := py_or (get_json_silent req) (PDict ∅) in
    reads (require_admin req);;
    ips ← lift (dict_get data "allowed_ips" (PList []));
    match ips with
    | PList l =>
        setitem "allowed_ips" ips;;
        setitem "ips_updated" (PStr (now_iso e));;
        mret (jsonify (dict_of [("message", PStr "IPs updated");
                                ("count", PInt (Z.of_nat (length l)));
                                ("allowed_ips", ips)]))
    | _ => lift (abort 400 "allowed_ips must be a list")
    end).

Definition get_ips (session_id : string) (req : request)
    : registry → result response * registry :=
  get_session session_id (
    reads (require_code req);;
    count ← get_or "student_count" (PInt 0);
    count' ← lift (py_add1 count);
    setitem "student_count" count';;
    contest_name ← getitem "contest_name";
    allowed_ips ← getitem "allowed_ips";
    status ← getitem "status";
    created_at ← getitem "created_at";
    updated_at ← get_or "ips_updated" created_at;
    mret (jsonify (dict_of [("session_id", PStr session_id);
                            ("contest_name", contest_name);
                            ("allowed_ips", allowed_ips);
                            ("status", status);
                            ("updated_at", updated_at)]))).

Definition get_status (session_id : string) (req : request)
    : registry → result response * registry :=
  get_session session_id (
    reads (require_code req);;
    status ← getitem "status";
    allowed_ips ← getitem "allowed_ips";
    created_at ← getitem "created_at";
    updated_at ← get_or "ips_updated" created_at;
    mret (jsonify (dict_of [("status", status);
                            ("allowed_ips", allowed_ips);
                            ("updated_at", updated_at)]))).

Definition end_session (session_id : string) (req : request) (e : env)
    : registry → result response * registry :=
  get_session session_id (
    reads (require_admin req);;
    setitem "status" (PStr "ended");;
    setitem "ended_at" (PStr (now_iso e));;
    ended_at ← getitem "ended_at";
    mret (jsonify (dict_of [("message", PStr "Session ended");
                            ("ended_at", ended_at)]))).

Definition post_log (session_id : string) (req : request) (e : env)
    : registry → result response * registry :=
  get_session session_id (
    let data := py_or (get_json_silent req) (PDict ∅) in
    reads (require_code req);;
    student_id ← lift (dict_get data "student_id" (PStr "unknown"));
    hostname ← lift (dict_get data "hostname" (PStr ""));
    event ← lift (dict_get data "event" (PStr ""));
    detail ← lift (dict_get data "detail" (PStr ""));
    let entry := PDict (dict_of [("timestamp", PStr (now_iso e));
                                 ("student_id", student_id);
                                 ("hostname", hostname);
                                 ("event", event);
                                 ("detail", detail)]) in
    logs ← getitem "logs";
    match logs with
    | PList l =>
        let l' := (l ++ [entry])%list in
        setitem "logs" (PList l');;
        if (1000 <? length l')%nat
        then setitem "logs" (PList (lastn 1000 l'))
        else mret ()
    | _ => lift (Raise AttributeError)
    end;;
    mret (jsonify (dict_of [("message", PStr "Logged")]))).

Definition get_logs (session_id : string) (req : request)
    : registry → result response * registry :=
  get_session session_id (
    reads (require_admin req);;
    contest_name ← getitem "contest_name";
    student_count ← getitem "student_count";
    logs ← getitem "logs";
    log_count ← lift (py_len logs);
    logs ← getitem "logs";
    mret (jsonify (dict_of [("session_id", PStr session_id);
                            ("contest_name", contest_name);
                            ("student_count", student_count);
                            ("log_count", PInt log_count);
                            ("logs", logs)]))).

Definition get_info (session_id : string) (req : request)
    : registry → result response * registry :=
  get_session session_id (
    reads (require_admin req);;
    s ← reads Ret;
    mret (jsonify (filter (λ kv, kv.1 ≠ "admin_token") s))).

(** *** The application

    A request is routed to its view function; [abort] leaves through the
    registered error handler of its status code, any other exception is
    Flask's 500 response. *)

Inductive route : Type :=
| GET_health
| POST_session_create
| POST_ips (session_id : string)
| GET_ips (session_id : string)
| GET_status (session_id : string)
| POST_end (session_id : string)
| POST_log (session_id : string)
| GET_logs (session_id : string)
| GET_info (session_id : string).

#[global] Instance route_eq_dec : EqDecision route.
Proof. solve_decision. Defined.

Definition view_function (r : route) (req : request) (e : env)
    : registry → result response * registry :=
  match r with
  | GET_health => health e
  | POST_session_create => create_session req e
  | POST_ips session_id => set_ips session_id req e
  | GET_ips session_id => get_ips session_id req
  | GET_status session_id => get_status session_id req
  | POST_end session_id => end_session session_id req e
  | POST_log session_id => post_log session_id req e
  | GET_logs session_id => get_logs session_id req
  | GET_info session_id => get_info session_id req
  end.

Definition status_name (code : Z) : string :=
  if code =? 400 then "Bad Request"
  else if code =? 403 then "Forbidden"
  else if code =? 404 then "Not Found"
  else "Unknown Error".

(** [str(e)] of an HTTP exception. *)
Definition http_str (code : Z) (description : string) : string :=
  pretty code +:+ " " +:+ status_name code +:+ ": " +:+ description.

(** [not_found], [forbidden] and [bad_request]: [{"error": str(e)}] with the
    exception's code. *)
Definition error_handler (code : Z) (description : string) : response :=
  Response code (Some (PDict (dict_of [("error", PStr (http_str code description))]))).

Definition handle_exception (r : result response) : response :=
  match r with
  | Ret resp => resp
  | Raise (HTTPException code description) =>
      if (code =? 400) || (code =? 403) || (code =? 404)
      then error_handler code description
      else Response code None
  | Raise _ => Response 500 None
  end.

(** One call of the service: the route, the request and the environment. *)
Record call : Type := Call {
  call_route : route;
  call_request : request;
  call_env : env;
}.

Definition serve (c : call) (SESSIONS : registry) : response * registry :=
  let '(r, SESSIONS') := view_function (call_route c) (call_request c) (call_env c) SESSIONS in
  (handle_exception r, SESSIONS').

(** A sequence of calls, served one after the other. *)
Fixpoint serve_all (cs : list call) (SESSIONS : registry) : list response * registry :=
  match cs with
  | [] => ([], SESSIONS)
  | c :: cs' =>
      let '(r, SESSIONS') := serve c SESSIONS in
      let '(rs, SESSIONS'') := serve_all cs' SESSIONS' in
      (r :: rs, SESSIONS'')
  end.

End Server.

(** ** Vocabulary of the properties *)

(** The session a route addresses, when it addresses one. *)
Definition route_session (r : route) : option string :=
  match r with
  | GET_health | POST_session_create => None
  | POST_ips sid | GET_ips sid | GET_status sid | POST_end sid
  | POST_log sid | GET_logs sid | GET_info sid => Some sid
  end.

(** The identifier [create_session] files the new record under. *)
Definition created_id (e : env) : string := upper (substring 0 8 (uuid4 e)).

(** [SESSIONS[sid][key]], when both exist. *)
Definition session_field (SESSIONS : registry) (sid key : string) : option pyval :=
  SESSIONS !! sid ≫= λ s, s !! key.

(** A top-level field of a response's JSON object. *)
Definition response_field (resp : response) (key : string) : option pyval :=
  match body resp with
  | Some (PDict d) => d !! key
  | _ => None
  end.

(** [isinstance(x, list)]. *)
Definition is_list (x : pyval) : bool :=
  match x with
  | PList _ => true
  | _ => false
  end.

Definition succeeded (resp : response) : Prop := status_code resp = 200.

#[global] Instance succeeded_dec resp : Decision (succeeded resp).
Proof. unfold succeeded. apply _. Defined.

(** The four routes that call [require_admin]. *)
Definition admin_route (r : route) (sid : string) : Prop :=
  r = POST_ips sid ∨ r = POST_end sid ∨ r = GET_logs sid ∨ r = GET_info sid.

(** An exception of the kind the handlers raise: one of the three [abort]
    codes, or a built-in error. *)
Definition is_failure (ex : exn) : Prop :=
  match ex with
  | HTTPException code _ => code = 400 ∨ code = 403 ∨ code = 404
  | _ => True
  end.

(** The statements after [get_session] leave an "ended" status in place. *)
Definition keeps_ended {A} (rest : SM A) : Prop :=
  ∀ s, s !! "status" = Some (PStr "ended") →
       (rest s).2 !! "status" = Some (PStr "ended").

(** The statements after [get_session] never return a response with the
    field [key]. *)
Definition never_shows (key : string) (rest : SM response) : Prop :=
  ∀ s resp, (rest s).1 = Ret resp → response_field resp key = None.

(** The record and the response [end_session] leaves at the time of [e]. *)
Definition ended_record (e : env) (s : dict) : dict :=
  <["ended_at" := PStr (now_iso e)]> (<["status" := PStr "ended"]> s).

Definition ended_response (e : env) : response :=
  jsonify (dict_of [("message", PStr "Session ended");
                    ("ended_at", PStr (now_iso e))]).

(** The record and the response [set_ips] leaves for the list [l]. *)
Definition ips_record (e : env) (l : list pyval) (s : dict) : dict :=
  <["ips_updated" := PStr (now_iso e)]> (<["allowed_ips" := PList l]> s).

Definition ips_response (l : list pyval) : response :=
  jsonify (dict_of [("message", PStr "IPs updated");
                    ("count", PInt (Z.of_nat (length l)));
                    ("allowed_ips", PList l)]).

(** How many calls of a sequence are [get_ips], and how many [get_status],
    on the session [sid]. *)
Definition policy_fetches (sid : string) (cs : list call) : nat :=
  length (filter (λ c, call_route c = GET_ips sid) cs).

Definition status_polls (sid : string) (cs : list call) : nat :=
  length (filter (λ c, call_route c = GET_status sid) cs).

(** The entry [post_log] builds for a call: the server's timestamp and the
    four fields of the body, each with its default. *)
Definition log_entry (c : call) : pyval :=
  let data := py_or (get_json_silent (call_request c)) (PDict ∅) in
  let field key dflt :=
    match dict_get data key dflt with Ret v => v | Raise _ => dflt end in
  PDict (dict_of [("timestamp", PStr (now_iso (call_env c)));
                  ("student_id", field "student_id" (PStr "unknown"));
                  ("hostname", field "hostname" (PStr ""));
                  ("event", field "event" (PStr ""));
                  ("detail", field "detail" (PStr ""))]).


(** What a session-scoped route can have done to the record [s] it was
    given when it leaves [s']: nothing, or the assignments of its handler. *)
Definition effect_of (r : route) (e : env) (s s' : dict) : Prop :=
  match r with
  | POST_ips _ => s' = s ∨ ∃ l, s' = ips_record e l s
  | GET_ips _ =>
      s' = s ∨
      ∃ count, py_add1 (default (PInt 0) (s !! "student_count")) = Ret count ∧
               s' = <["student_count" := count]> s
  | POST_end _ => s' = s ∨ s' = ended_record e s
  | POST_log _ =>
      s' = s ∨
      ∃ l entry, s !! "logs" = Some (PList l) ∧
                 s' = <["logs" := PList (lastn 1000 (l ++ [entry]))]> s
  | _ => s' = s
  end.

(** The keys of the record a route assigns. *)
Definition writes (r : route) : list string :=
  match r with
  | POST_ips _ => ["allowed_ips"; "ips_updated"]
  | GET_ips _ => ["student_count"]
  | POST_end _ => ["status"; "ended_at"]
  | POST_log _ => ["logs"]
  | _ => []
  end.

(** The shape of a record as [create_session] makes it and the handlers keep
    it: filed under its own identifier, two text secrets, a list of
    addresses, either active with no end time or ended with one, at most
    1000 log entries, a counter that is a natural number, and a text
    [ips_updated] once there is one. *)
Definition wf_session (sid : string) (s : dict) : Prop :=
  s !! "session_id" = Some (PStr sid) ∧
  (∃ code, s !! "session_code" = Some (PStr code)) ∧
  (∃ token, s !! "admin_token" = Some (PStr token)) ∧
  is_Some (s !! "contest_name") ∧
  (∃ ips, s !! "allowed_ips" = Some (PList ips)) ∧
  (∃ t, s !! "created_at" = Some (PStr t)) ∧
  ((s !! "status" = Some (PStr "active") ∧ s !! "ended_at" = Some PNone) ∨
   (s !! "status" = Some (PStr "ended") ∧
    ∃ t, s !! "ended_at" = Some (PStr t))) ∧
  (∃ logs, s !! "logs" = Some (PList logs) ∧ (length logs ≤ 1000)%nat) ∧
  (∃ n, s !! "student_count" = Some (PInt n) ∧ 0 ≤ n) ∧
  (s !! "ips_updated" = None ∨ ∃ t, s !! "ips_updated" = Some (PStr t)).

Definition wf_registry (SESSIONS : registry) : Prop :=
  ∀ sid s, SESSIONS !! sid = Some s → wf_session sid s.

(** The code [require_code] compares: the header when it is not empty, the
    query parameter otherwise. *)
Definition presented_code (req : request) : string :=
  match headers req !! "X-Session-Code" with
  | Some c => if String.eqb c "" then default "" (args req !! "code") else c
  | None => default "" (args req !! "code")
  end.

(** The two routes that call [require_code] and only read or count. *)
Definition student_route (r : route) (sid : string) : Prop :=
  r = GET_ips sid ∨ r = GET_status sid ∨ r = POST_log sid.


(** The fields of a record that only [create_session] assigns. *)
Definition immutable_key (key : string) : Prop :=
  key = "session_id" ∨ key = "session_code" ∨ key = "admin_token" ∨
  key = "contest_name" ∨ key = "created_at".


(** The statements after [get_session] answer 200 when they return, and
    have assigned nothing when they [abort]. *)
Definition fails_clean (rest : SM response) : Prop :=
  ∀ s, match (rest s).1 with
       | Ret resp => status_code resp = 200
       | Raise (HTTPException _ _) => (rest s).2 = s
       | Raise _ => True
       end.


(** A response with one of the three client-error codes. *)
Definition client_error (resp : response) : Prop :=
  status_code resp = 400 ∨ status_code resp = 403 ∨ status_code resp = 404.


(** The response of [get_status] on the record [s]. *)
Definition status_response (s : dict) : response :=
  jsonify (dict_of
    [("status", default PNone (s !! "status"));
     ("allowed_ips", default PNone (s !! "allowed_ips"));
     ("updated_at", default (default PNone (s !! "created_at"))
                            (s !! "ips_updated"))]).


(** The three ways a request can carry the token [t] so that
    [require_admin] reads it: the header under a JSON content type; the body
    field under a JSON content type when the header is absent or empty; the
    query parameter under any other content type. *)
Definition presents_token (req : request) (t : string) : Prop :=
  (is_json req = true ∧ headers req !! "X-Admin-Token" = Some t) ∨
  (is_json req = true ∧ default "" (headers req !! "X-Admin-Token") = "" ∧
   ∃ d, json_body req = Some (PDict d) ∧ d !! "admin_token" = Some (PStr t)) ∨
  (is_json req = false ∧ args req !! "admin_token" = Some t).

(** The response of [get_logs] for the record [s] holding the log [logs]. *)
Definition logs_response (sid : string) (s : dict) (logs : list pyval) : response :=
  jsonify (dict_of
    [("session_id", PStr sid);
     ("contest_name", default PNone (s !! "contest_name"));
     ("student_count", default PNone (s !! "student_count"));
     ("log_count", PInt (Z.of_nat (length logs)));
     ("logs", PList logs)]).


(** A text made of decimal digits only. *)
Definition is_digits (s : string) : bool :=
  forallb (λ c, (48 <=? N_of_ascii c)%N && (N_of_ascii c <=? 57)%N)
          (list_ascii_of_string s).

(** A JSON body that is present, true as a condition, and not an object:
    a non-empty array or text, a non-zero number, [true]. *)
Definition non_object_body (req : request) : Prop :=
  is_json req = true ∧
  ∃ v, json_body req = Some v ∧ truthy v = true ∧ ∀ d, v ≠ PDict d.


(** The response of [get_ips] on the record [s]. *)
Definition policy_response (sid : string) (s : dict) : response :=
  jsonify (dict_of
    [("session_id", PStr sid);
     ("contest_name", default PNone (s !! "contest_name"));
     ("allowed_ips", default PNone (s !! "allowed_ips"));
     ("status", default PNone (s !! "status"));
     ("updated_at", default (default PNone (s !! "created_at"))
                            (s !! "ips_updated"))]).

(** How many calls of a sequence are [get_ips] calls on [sid] that were
    answered 200, given the responses. *)
Definition counted_fetches (sid : string) (cs : list call) (rs : list response) : nat :=
  length (filter (λ cr, call_route cr.1 = GET_ips sid ∧ succeeded cr.2)
                 (zip cs rs)).


(** The entry [post_log] builds from the object [d] at the time of [e]. *)
Definition entry_of (e : env) (d : dict) : pyval :=
  PDict (dict_of [("timestamp", PStr (now_iso e));
                  ("student_id", default (PStr "unknown") (d !! "student_id"));
                  ("hostname", default (PStr "") (d !! "hostname"));
                  ("event", default (PStr "") (d !! "event"));
                  ("detail", default (PStr "") (d !! "detail"))]).

(** The entry of a request without body fields. *)
Definition blank_entry (e : env) : pyval :=
  PDict (dict_of [("timestamp", PStr (now_iso e));
                  ("student_id", PStr "unknown");
                  ("hostname", PStr "");
                  ("event", PStr "");
                  ("detail", PStr "")]).


(** ** A worked scenario

    One session, created at nine o'clock; the administrator holds the token
    and the students the code 1234. *)

(** A rendering of containers that elides their contents. *)
Definition elide_repr (x : pyval) : string := "[...]".

Definition secret : string := "5f2a9c0e7b1d4a3c8e6f0a1b2c3d4e5f6a7b8c9d0e1f2a3b".

Definition env_at (now : string) : env :=
  Env now "a3f7b2c1-5d6e-4f70-8a9b-0c1d2e3f4a5b" secret 234.

Definition other_env_at (now : string) : env :=
  Env now "0c9d8e7f-1a2b-4c3d-9e8f-7a6b5c4d3e2f" "00ff" 4321.

Definition anonymous : request := Request ∅ ∅ false None.

(** The administrator, with a JSON body and the token in the header. *)
Definition admin_json (payload : dict) : request :=
  Request {["X-Admin-Token" := secret]} ∅ true (Some (PDict payload)).

(** The administrator, token in the header, no JSON content type. *)
Definition admin_plain : request :=
  Request {["X-Admin-Token" := secret]} ∅ false None.

(** A student, code in the header. *)
Definition student : request :=
  Request {["X-Session-Code" := "1234"]} ∅ false None.

Definition student_event (event : string) : request :=
  Request {["X-Session-Code" := "1234"]} ∅ true
          (Some (PDict {["student_id" := PStr "s-17"; "event" := PStr event]})).

Definition opened : registry :=
  (serve elide_repr (Call POST_session_create anonymous
                          (env_at "2024-05-01T09:00:00Z")) ∅).2.

Definition closed : registry :=
  (serve elide_repr (Call (POST_end "A3F7B2C1") (admin_json ∅)
                          (env_at "2024-05-01T10:00:00Z")) opened).2.

Definition two_sessions : registry :=
  (serve elide_repr (Call POST_session_create anonymous
                          (other_env_at "2024-05-01T09:30:00Z")) opened).2.

Definition poll : call := Call (GET_status "A3F7B2C1") student (env_at "2024-05-01T09:10:00Z").
Definition fetch : call := Call (GET_ips "A3F7B2C1") student (env_at "2024-05-01T09:20:00Z").

Definition thirteen_calls : list call :=
  [poll; poll; fetch; poll; poll; poll; fetch; poll; poll; poll; poll; fetch; poll].

Definition three_logs : list call :=
  [Call (POST_log "A3F7B2C1") (student_event "focus-lost") (env_at "2024-05-01T09:11:00Z");
   Call (POST_log "A3F7B2C1") student (env_at "2024-05-01T09:12:00Z");
   Call (POST_log "A3F7B2C1") (student_event "focus-back") (env_at "2024-05-01T09:13:00Z")].


(** A student whose code has a character outside ASCII. *)
Definition accented_student : request :=
  Request {["X-Session-Code" := String (ascii_of_N 233) "234"]} ∅ false None.

(** A student with a wrong code. *)
Definition stranger : request :=
  Request {["X-Session-Code" := "0000"]} ∅ false None.

(** A request whose JSON body is the array [[1]]. *)
Definition array_body : request :=
  Request {["X-Session-Code" := "1234"]} ∅ true (Some (PList [PInt 1])).

(** The administrator sending the array [[1]] as JSON body. *)
Definition admin_array : request :=
  Request {["X-Admin-Token" := secret]} ∅ true (Some (PList [PInt 1])).

(** A wrong token in the header, the right one in the body and the query. *)
Definition mixed_tokens : request :=
  Request {["X-Admin-Token" := "guess"]} {["admin_token" := secret]} true
          (Some (PDict {["admin_token" := PStr secret]})).

Definition push (ips : list pyval) (now : string) : call :=
  Call (POST_ips "A3F7B2C1") (admin_json {["allowed_ips" := PList ips]})
       (env_at now).

Definition busy_day : list call :=
  thirteen_calls ++
  [Call (GET_ips "A3F7B2C1") stranger (env_at "2024-05-01T09:30:00Z");
   Call (GET_ips "A3F7B2C1") accented_student (env_at "2024-05-01T09:31:00Z");
   push [PStr "10.0.0.0/8"] "2024-05-01T09:32:00Z";
   Call POST_session_create anonymous (other_env_at "2024-05-01T09:33:00Z");
   Call (GET_ips "0C9D8E7F") student (env_at "2024-05-01T09:34:00Z")] ++
  three_logs ++
  [Call (POST_end "A3F7B2C1") (admin_json ∅) (env_at "2024-05-01T10:00:00Z");
   fetch].


(** ** Properties *)

Section Properties.

Variable repr : pyval → string.

Lemma truthy_dict (s : dict) : truthy (PDict s) = true ↔ s ≠ ∅.
Proof.
  simpl. rewrite <- (map_to_list_empty_iff s).
  destruct (map_to_list s); split; congruence.
Qed.

Lemma falsy_dict (s : dict) : truthy (PDict s) = false ↔ s = ∅.
Proof.
  simpl. rewrite <- (map_to_list_empty_iff s).
  destruct (map_to_list s); split; congruence.
Qed.

(** *** [get_session] *)

Lemma get_session_missing {A} sid (rest : SM A) (S : registry) :
  S !! sid = None →
  get_session sid rest S = (abort 404 "Session not found", S).
Proof. intros H. unfold get_session. by rewrite H. Qed.

Lemma get_session_found {A} sid (rest : SM A) (S : registry) s :
  S !! sid = Some s → s ≠ ∅ →
  get_session sid rest S = ((rest s).1, <[sid := (rest s).2]> S).
Proof.
  intros H Hne. unfold get_session. rewrite H.
  apply truthy_dict in Hne. rewrite Hne. simpl. by destruct (rest s).
Qed.

Lemma get_session_frame {A} sid sid' (rest : SM A) (S : registry) :
  sid ≠ sid' → (get_session sid rest S).2 !! sid' = S !! sid'.
Proof.
  intros Hne. unfold get_session.
  destruct (S !! sid) as [s|]; [|done].
  destruct (negb _); [done|].
  destruct (rest s). simpl. by rewrite lookup_insert_ne.
Qed.

Lemma get_session_local {A} sid (rest : SM A) (S1 S2 : registry) :
  S1 !! sid = S2 !! sid →
  (get_session sid rest S1).1 = (get_session sid rest S2).1 ∧
  (get_session sid rest S1).2 !! sid = (get_session sid rest S2).2 !! sid.
Proof.
  intros H. unfold get_session. rewrite <- H.
  destruct (S1 !! sid) as [s|] eqn:E; simpl; [|by rewrite E].
  destruct (negb _); simpl; [by rewrite E|].
  destruct (rest s). simpl. by rewrite !lookup_insert_eq.
Qed.

Lemma view_function_session r sid req e :
  route_session r = Some sid →
  ∃ rest : SM response, view_function repr r req e = get_session sid rest.
Proof.
  destruct r; simpl; intros [= <-]; eexists; reflexivity.
Qed.

Lemma serve_unknown_session r sid req e (S : registry) :
  route_session r = Some sid →
  S !! sid = None →
  serve repr (Call r req e) S = (error_handler 404 "Session not found", S).
Proof.
  intros Hr Hnone. unfold serve. simpl.
  destruct (view_function_session r sid req e Hr) as [rest ->].
  by rewrite get_session_missing.
Qed.

(** C10. Every session-scoped route answers an identifier that has no record
    with the 404 response "Session not found", whatever the request carries:
    the lookup comes before the credential check, so the answer is never a
    403, and the registry is left as it was. *)
Theorem unknown_session_is_not_found r sid req e (S : registry) :
  route_session r = Some sid →
  S !! sid = None →
  serve repr (Call r req e) S = (error_handler 404 "Session not found", S) ∧
  status_code (serve repr (Call r req e) S).1 = 404 ∧
  (serve repr (Call r req e) S).2 = S.
Proof.
  intros Hr Hnone. by rewrite (serve_unknown_session r sid req e S Hr Hnone).
Qed.

(** C9. A call on session [A] leaves the record of every other session [B]
    exactly as it was, and both its response and the record it leaves for
    [A] are determined by [A]'s record alone: two registries that agree on
    [A] and differ anywhere else give the same response. *)
Theorem session_isolation r A B req e (S1 S2 : registry) :
  route_session r = Some A →
  A ≠ B →
  S1 !! A = S2 !! A →
  (serve repr (Call r req e) S1).2 !! B = S1 !! B ∧
  (serve repr (Call r req e) S1).1 = (serve repr (Call r req e) S2).1 ∧
  (serve repr (Call r req e) S1).2 !! A = (serve repr (Call r req e) S2).2 !! A.
Proof.
  intros Hr Hne Hagree. unfold serve. simpl.
  destruct (view_function_session r A req e Hr) as [rest ->].
  pose proof (get_session_frame A B rest S1 Hne) as Hframe.
  destruct (get_session_local A rest S1 S2 Hagree) as [Hresp Hrec].
  destruct (get_session A rest S1) as [r1 S1'], (get_session A rest S2) as [r2 S2'].
  simpl in *. by subst.
Qed.

(** *** Running a handler's statements *)

Ltac sm_simpl :=
  unfold mbind, SM_bind, mret, SM_ret, reads, lift, getitem, get_or, setitem in *;
  simpl in *.

Ltac sm_cases :=
  sm_simpl; repeat (case_match; sm_simpl; simplify_eq/=); try done.

(** *** The status of a record *)

Lemma get_session_keeps_ended {A} sid sid' (rest : SM A) (S : registry) :
  keeps_ended rest →
  session_field S sid' "status" = Some (PStr "ended") →
  session_field (get_session sid rest S).2 sid' "status" = Some (PStr "ended").
Proof.
  intros Hrest Hended. unfold session_field in *.
  destruct (decide (sid = sid')) as [<-|Hne].
  - unfold get_session.
    destruct (S !! sid) as [s|] eqn:E; simpl in *; [|by rewrite E].
    destruct (negb _); simpl; [by rewrite E|].
    specialize (Hrest s Hended). destruct (rest s) as [r s']. simpl in *.
    by rewrite lookup_insert_eq.
  - by rewrite get_session_frame.
Qed.

Lemma session_route_keeps_ended r sid req e :
  route_session r = Some sid →
  ∃ rest : SM response,
    view_function repr r req e = get_session sid rest ∧ keeps_ended rest.
Proof.
  destruct r; simpl; intros [= <-]; eexists; (split; [reflexivity|]);
    intros s Hs; sm_cases;
    repeat (rewrite lookup_insert_eq || rewrite lookup_insert_ne by done); done.
Qed.

Lemma create_session_other req e sid (S : registry) :
  created_id e ≠ sid →
  (create_session req e S).2 !! sid = S !! sid.
Proof.
  intros Hne. unfold create_session.
  destruct (dict_get _ _ _); simpl; [|done].
  by rewrite lookup_insert_ne.
Qed.

Lemma serve_keeps_ended c sid (S : registry) :
  (call_route c = POST_session_create → created_id (call_env c) ≠ sid) →
  session_field S sid "status" = Some (PStr "ended") →
  session_field (serve repr c S).2 sid "status" = Some (PStr "ended").
Proof.
  destruct c as [r req e]. simpl. intros Hfresh Hended.
  unfold serve. simpl.
  destruct (route_session r) as [sid'|] eqn:Hr.
  - destruct (session_route_keeps_ended r sid' req e Hr) as (rest & -> & Hrest).
    pose proof (get_session_keeps_ended sid' sid rest S Hrest Hended) as H.
    by destruct (get_session sid' rest S).
  - destruct r; try discriminate; simpl.
    + done.
    + pose proof (create_session_other req e sid S (Hfresh eq_refl)) as H.
      unfold session_field in *.
      destruct (create_session req e S). simpl in *. by rewrite H.
Qed.

(** C8 (amended). Once a session's status is "ended" it stays "ended" along
    every sequence of calls of the service in which no [create_session] draws
    the identifier of that session: such a draw files a new, active record
    under the identifier. *)
Theorem ended_is_terminal cs sid (S : registry) :
  session_field S sid "status" = Some (PStr "ended") →
  Forall (λ c, call_route c = POST_session_create →
               created_id (call_env c) ≠ sid) cs →
  session_field (serve_all repr cs S).2 sid "status" = Some (PStr "ended").
Proof.
  intros Hended Hcs. revert S Hended.
  induction Hcs as [|c cs Hc _ IH]; intros S Hended; [done|].
  simpl. pose proof (serve_keeps_ended c sid S Hc Hended) as Hstep.
  destruct (serve repr c S) as [r S1]. simpl in Hstep.
  specialize (IH S1 Hstep).
  by destruct (serve_all repr cs S1).
Qed.

(** *** What a response shows *)

Lemma error_response_field e key :
  key ≠ "error" →
  response_field (handle_exception (Raise e)) key = None.
Proof.
  intros Hkey. destruct e as [code description| | |]; simpl; try done.
  destruct (_ || _); [|done].
  unfold response_field, error_handler. simpl.
  by rewrite lookup_insert_ne.
Qed.

Lemma get_session_never_shows sid key (rest : SM response) (S : registry) :
  key ≠ "error" →
  never_shows key rest →
  response_field (handle_exception (get_session sid rest S).1) key = None.
Proof.
  intros Hkey Hrest. unfold get_session.
  destruct (S !! sid) as [s|]; [|by apply error_response_field].
  destruct (negb _); [by apply error_response_field|].
  specialize (Hrest s). destruct (rest s) as [[resp|ex] s']; simpl in *.
  - by apply Hrest.
  - by apply error_response_field.
Qed.

Lemma session_route_hides_admin_token r sid req e :
  route_session r = Some sid →
  ∃ rest : SM response,
    view_function repr r req e = get_session sid rest ∧
    never_shows "admin_token" rest.
Proof.
  destruct r; simpl; intros [= <-]; eexists; (split; [reflexivity|]);
    intros s resp; sm_cases; intros [= <-]; unfold response_field; simpl;
    try (repeat (rewrite lookup_insert_ne by done); done).
  apply map_lookup_filter_None. right. intros x _ Hx. by apply Hx.
Qed.

(** C7. No response of a route other than [create_session] has a field
    [admin_token] in its JSON object, be it a success or one of the 400, 403
    and 404 error objects; the 201 response of [create_session] has the
    field, and it holds the new session's token. *)
Theorem admin_token_only_in_create_response r req e (S : registry) :
  (r ≠ POST_session_create →
   response_field (serve repr (Call r req e) S).1 "admin_token" = None) ∧
  (r = POST_session_create →
   status_code (serve repr (Call r req e) S).1 = 201 →
   response_field (serve repr (Call r req e) S).1 "admin_token"
   = Some (PStr (token_hex e))).
Proof.
  unfold serve. simpl. split.
  - intros Hr. destruct (route_session r) as [sid|] eqn:Hsid.
    + destruct (session_route_hides_admin_token r sid req e Hsid)
        as (rest & -> & Hrest).
      pose proof (get_session_never_shows sid "admin_token" rest S
                    ltac:(done) Hrest) as H.
      by destruct (get_session sid rest S).
    + destruct r; try done.
  - intros ->. simpl. unfold create_session.
    destruct (dict_get _ _ _) as [name|ex] eqn:E; simpl.
    + intros _. unfold response_field. simpl.
      by repeat (rewrite lookup_insert_ne by done; try rewrite lookup_insert_eq).
    + unfold dict_get in E. by destruct (py_or _ _); simplify_eq.
Qed.

(** *** Authorization reads the secret only *)

Lemma require_admin_insert req key v (s : dict) :
  key ≠ "admin_token" →
  require_admin repr req (<[key := v]> s) = require_admin repr req s.
Proof.
  intros Hkey. unfold require_admin, item. by rewrite lookup_insert_ne.
Qed.

Lemma require_code_insert req key v (s : dict) :
  key ≠ "session_code" →
  require_code repr req (<[key := v]> s) = require_code repr req s.
Proof.
  intros Hkey. unfold require_code, item. by rewrite lookup_insert_ne.
Qed.

Lemma insert_nonempty key v (s : dict) : <[key := v]> s ≠ ∅.
Proof. apply insert_non_empty. Qed.

Lemma has_key_nonempty key v (s : dict) : s !! key = Some v → s ≠ ∅.
Proof. intros H ->. by rewrite lookup_empty in H. Qed.

(** *** [end_session] *)

Lemma end_session_authorized sid req e (S : registry) s :
  S !! sid = Some s → s ≠ ∅ →
  require_admin repr req s = Ret () →
  serve repr (Call (POST_end sid) req e) S
  = (ended_response e, <[sid := ended_record e s]> S).
Proof.
  intros Hs Hne Hauth. unfold serve, view_function, end_session.
  cbn [call_route call_request call_env].
  erewrite get_session_found by done.
  sm_simpl. rewrite Hauth. simpl. unfold item.
  by rewrite lookup_insert_eq.
Qed.

Lemma ended_record_status e s :
  ended_record e s !! "status" = Some (PStr "ended").
Proof. unfold ended_record. by rewrite lookup_insert_ne, lookup_insert_eq. Qed.

Lemma ended_record_ended_at e s :
  ended_record e s !! "ended_at" = Some (PStr (now_iso e)).
Proof. unfold ended_record. by rewrite lookup_insert_eq. Qed.

Lemma ended_record_authorized req e s :
  require_admin repr req (ended_record e s) = require_admin repr req s.
Proof. unfold ended_record. by rewrite !require_admin_insert. Qed.

(** C5. [end_session] answers an unknown identifier with the 404 response.
    On an existing session, whatever its status, an authorized call
    succeeds, sets the status to "ended" and stamps [ended_at] with the time
    of that call; a further call at a later reading of the clock succeeds
    again and stamps [ended_at] with its own time. *)
Theorem end_session_restamps sid req e e' (S : registry) :
  (S !! sid = None →
   serve repr (Call (POST_end sid) req e) S
   = (error_handler 404 "Session not found", S)) ∧
  (∀ s, S !! sid = Some s → s ≠ ∅ →
        require_admin repr req s = Ret () →
        ∃ S1 S2,
          serve repr (Call (POST_end sid) req e) S = (ended_response e, S1) ∧
          session_field S1 sid "status" = Some (PStr "ended") ∧
          session_field S1 sid "ended_at" = Some (PStr (now_iso e)) ∧
          serve repr (Call (POST_end sid) req e') S1 = (ended_response e', S2) ∧
          session_field S2 sid "status" = Some (PStr "ended") ∧
          session_field S2 sid "ended_at" = Some (PStr (now_iso e'))).
Proof.
  split.
  - intros Hnone. by apply (serve_unknown_session _ sid).
  - intros s Hs Hne Hauth.
    exists (<[sid := ended_record e s]> S).
    exists (<[sid := ended_record e' (ended_record e s)]>
              (<[sid := ended_record e s]> S)).
    unfold session_field. rewrite !lookup_insert_eq. simpl.
    rewrite !ended_record_status, !ended_record_ended_at.
    split_and!; try done.
    + by apply end_session_authorized.
    + apply end_session_authorized.
      * by rewrite lookup_insert_eq.
      * apply insert_nonempty.
      * by rewrite ended_record_authorized.
Qed.

(** C6 (amended). On a session that is already "ended", a further authorized
    [end_session] succeeds, stores the time of this call in [ended_at] and
    reports that time; the earlier value survives only when the clock reads
    the same text. *)
Theorem end_session_on_ended_reports_call_time sid req e (S : registry) s t0 :
  S !! sid = Some s →
  s !! "status" = Some (PStr "ended") →
  s !! "ended_at" = Some t0 →
  require_admin repr req s = Ret () →
  (serve repr (Call (POST_end sid) req e) S).1 = ended_response e ∧
  response_field (ended_response e) "ended_at" = Some (PStr (now_iso e)) ∧
  session_field (serve repr (Call (POST_end sid) req e) S).2 sid "ended_at"
  = Some (PStr (now_iso e)) ∧
  (session_field (serve repr (Call (POST_end sid) req e) S).2 sid "ended_at"
   = Some t0 ↔ t0 = PStr (now_iso e)).
Proof.
  intros Hs Hstatus Hat Hauth.
  rewrite (end_session_authorized sid req e S s Hs
             (has_key_nonempty _ _ _ Hstatus) Hauth).
  simpl. unfold session_field. rewrite lookup_insert_eq. simpl.
  rewrite ended_record_ended_at. split_and!; try done.
  split; congruence.
Qed.

(** *** Exceptions never look like a success *)

Lemma failure_not_succeeded ex :
  is_failure ex → ¬ succeeded (handle_exception (Raise ex)).
Proof.
  unfold succeeded. destruct ex as [code description| | |]; simpl; try done.
  by intros [->| [->| ->]].
Qed.

Lemma item_failure s key ex : item s key = Raise ex → is_failure ex.
Proof. unfold item. by destruct (s !! key); intros [= <-]. Qed.

Lemma dict_get_failure x key dflt ex :
  dict_get x key dflt = Raise ex → is_failure ex.
Proof. by destruct x; intros [= <-]. Qed.

Lemma compare_digest_failure a b ex :
  compare_digest a b = Raise ex → is_failure ex.
Proof. unfold compare_digest. by destruct (_ && _); intros [= <-]. Qed.

Lemma py_add1_failure x ex : py_add1 x = Raise ex → is_failure ex.
Proof. by destruct x; intros [= <-]. Qed.

Lemma py_len_failure x ex : py_len x = Raise ex → is_failure ex.
Proof. by destruct x; intros [= <-]. Qed.

Lemma request_json_failure req ex : request_json req = Raise ex → is_failure ex.
Proof.
  unfold request_json. destruct (json_body req); intros [= <-]. simpl. auto.
Qed.

Lemma require_admin_failure req s ex :
  require_admin repr req s = Raise ex → is_failure ex.
Proof.
  unfold require_admin, abort. unfold mbind, result_bind.
  repeat case_match; intros; simplify_eq/=; auto;
    eauto using item_failure, dict_get_failure, compare_digest_failure,
                request_json_failure.
Qed.

Lemma require_code_failure req s ex :
  require_code repr req s = Raise ex → is_failure ex.
Proof.
  unfold require_code, abort. unfold mbind, result_bind.
  repeat case_match; intros; simplify_eq/=; auto;
    eauto using item_failure, compare_digest_failure.
Qed.

Create HintDb failure.
#[local] Hint Resolve item_failure dict_get_failure py_add1_failure
  py_len_failure require_admin_failure require_code_failure : failure.

(** Closes a branch in which a raised exception is assumed to have given a
    200 response. *)
Ltac failed_branch :=
  match goal with
  | H : succeeded (handle_exception (Raise ?ex)) |- _ =>
      exfalso; revert H; apply failure_not_succeeded;
      solve [simpl; auto | eauto with failure]
  | H : succeeded _ |- _ =>
      solve [exfalso; revert H; unfold succeeded; simpl; done]
  end.

(** *** [set_ips] *)

(** C4. On an existing session and an authorized request whose body is a
    JSON object: when the [allowed_ips] payload is not a list the call is
    answered with the 400 response and the registry, hence the whole record,
    is unchanged; when it is a list (or absent, which reads as the empty
    list) [allowed_ips] becomes that list and [ips_updated] the time of the
    call. *)
Theorem set_ips_validates_payload sid req e (S : registry) s d :
  S !! sid = Some s → s ≠ ∅ →
  require_admin repr req s = Ret () →
  py_or (get_json_silent req) (PDict ∅) = PDict d →
  (is_list (default (PList []) (d !! "allowed_ips")) = false →
   serve repr (Call (POST_ips sid) req e) S
   = (error_handler 400 "allowed_ips must be a list", S)) ∧
  (∀ l, default (PList []) (d !! "allowed_ips") = PList l →
        serve repr (Call (POST_ips sid) req e) S
        = (ips_response l, <[sid := ips_record e l s]> S) ∧
        ips_record e l s !! "allowed_ips" = Some (PList l) ∧
        ips_record e l s !! "ips_updated" = Some (PStr (now_iso e))).
Proof.
  intros Hs Hne Hauth Hdata.
  unfold serve, view_function, set_ips.
  cbn [call_route call_request call_env].
  erewrite get_session_found by done.
  rewrite Hdata. sm_simpl. rewrite Hauth. simpl. split.
  - destruct (default (PList []) (d !! "allowed_ips")); simpl; try done;
      intros _; by rewrite insert_id.
  - intros l ->. simpl. split; [done|].
    unfold ips_record.
    by rewrite lookup_insert_eq, lookup_insert_ne, lookup_insert_eq.
Qed.

(** *** Where [require_admin] takes the token from *)

Lemma compare_digest_empty t :
  t ≠ "" → is_ascii t = true → compare_digest "" t = Ret false.
Proof.
  intros Hne Hascii. unfold compare_digest. rewrite Hascii. simpl.
  by destruct t.
Qed.

Lemma compare_digest_same t :
  is_ascii t = true → compare_digest t t = Ret true.
Proof.
  intros Hascii. unfold compare_digest. rewrite Hascii. simpl.
  by rewrite String.eqb_refl.
Qed.

(** Under a JSON content type a non-empty header is the token. *)
Lemma require_admin_json_header req (s : dict) t :
  is_json req = true →
  headers req !! "X-Admin-Token" = Some t → t ≠ "" →
  s !! "admin_token" = Some (PStr t) → is_ascii t = true →
  require_admin repr req s = Ret ().
Proof.
  intros Hjson Hhdr Hne Htok Hascii.
  unfold require_admin, headers_get, item. rewrite Hjson, Hhdr, Htok. simpl.
  destruct (String.eqb_spec t ""); [done|]. simpl.
  by rewrite compare_digest_same.
Qed.

(** Under any other content type the query parameter alone is the token. *)
Lemma require_admin_not_json req (s : dict) :
  is_json req = false →
  require_admin repr req s
  = (expected ← item s "admin_token";
     same ← compare_digest (default "" (args req !! "admin_token"))
                           (py_str repr expected);
     if negb same then abort 403 "Invalid admin token" else Ret ()).
Proof. intros Hjson. unfold require_admin. by rewrite Hjson. Qed.

(** C1 (the code departs from it). On each of the four admin routes, a
    request whose [X-Admin-Token] header is exactly the record's token is
    refused with the 403 response when its content type is not JSON and it
    has no [admin_token] query parameter: the header is read only inside the
    JSON branch of the conditional expression. *)
Theorem admin_header_ignored_without_json r sid req e (S : registry) s t :
  admin_route r sid →
  S !! sid = Some s →
  s !! "admin_token" = Some (PStr t) → t ≠ "" → is_ascii t = true →
  headers req !! "X-Admin-Token" = Some t →
  is_json req = false →
  args req !! "admin_token" = None →
  serve repr (Call r req e) S
  = (error_handler 403 "Invalid admin token", S).
Proof.
  intros Hr Hs Htok Hne Hascii Hhdr Hjson Hargs.
  assert (Hauth : require_admin repr req s = abort 403 "Invalid admin token").
  { rewrite require_admin_not_json by done. unfold item.
    rewrite Htok, Hargs. simpl. by rewrite compare_digest_empty. }
  pose proof (has_key_nonempty _ _ _ Htok) as Hnonempty.
  unfold serve. cbn [call_route call_request call_env].
  destruct Hr as [->|[->|[->| ->]]]; unfold view_function;
    [unfold set_ips | unfold end_session | unfold get_logs | unfold get_info];
    erewrite get_session_found by done;
    sm_simpl; rewrite Hauth; simpl; by rewrite insert_id.
Qed.

(** *** The student counter *)

#[local] Arguments handle_exception : simpl never.

Lemma get_session_reads {A} sid (rest : SM A) (S : registry) :
  (∀ s, (rest s).2 = s) → (get_session sid rest S).2 = S.
Proof.
  intros Hrest. unfold get_session.
  destruct (S !! sid) as [s|] eqn:E; [|done].
  destruct (negb _); [done|].
  specialize (Hrest s). destruct (rest s) as [r s']. simpl in *. subst.
  by apply insert_id.
Qed.

Lemma get_status_reads sid req e (S : registry) :
  (serve repr (Call (GET_status sid) req e) S).2 = S.
Proof.
  unfold serve, view_function, get_status.
  cbn [call_route call_request call_env].
  match goal with |- context [get_session sid ?rest S] =>
    pose proof (get_session_reads sid rest S) as H;
    destruct (get_session sid rest S) end.
  simpl in *. apply H. intros s. by sm_cases.
Qed.

Lemma get_ips_succeeded sid req e (S : registry) :
  succeeded (serve repr (Call (GET_ips sid) req e) S).1 →
  ∃ s count,
    S !! sid = Some s ∧
    py_add1 (default (PInt 0) (s !! "student_count")) = Ret count ∧
    (serve repr (Call (GET_ips sid) req e) S).2
    = <[sid := <["student_count" := count]> s]> S.
Proof.
  unfold serve, view_function, get_ips, get_session.
  cbn [call_route call_request call_env].
  destruct (S !! sid) as [s|]; [|simpl; intros; failed_branch].
  destruct (negb _); [simpl; intros; failed_branch|].
  sm_cases; intros; try failed_branch; by eexists _, _.
Qed.

Lemma student_count_after sid cs (S : registry) n :
  session_field S sid "student_count" = Some (PInt n) →
  Forall (λ c, call_route c = GET_status sid ∨ call_route c = GET_ips sid) cs →
  Forall succeeded (serve_all repr cs S).1 →
  session_field (serve_all repr cs S).2 sid "student_count"
  = Some (PInt (n + Z.of_nat (policy_fetches sid cs))).
Proof.
  intros Hn Hcs. revert S n Hn.
  induction Hcs as [|[r req e] cs Hr _ IH]; intros S n Hn Hok.
  { simpl. by rewrite Z.add_0_r. }
  simpl in Hr. simpl in *.
  destruct (serve repr (Call r req e) S) as [resp S1] eqn:Hserve.
  destruct (serve_all repr cs S1) as [rs S2] eqn:Hrest. simpl in *.
  apply Forall_cons in Hok as [Hresp Hrs].
  unfold policy_fetches. rewrite filter_cons. simpl.
  assert (Hrs' : Forall succeeded (serve_all repr cs S1).1) by by rewrite Hrest.
  destruct Hr as [-> | ->].
  - rewrite decide_False by done.
    pose proof (get_status_reads sid req e S) as Hsame.
    rewrite Hserve in Hsame. simpl in Hsame. subst S1.
    specialize (IH S n Hn Hrs'). by rewrite Hrest in IH.
  - rewrite decide_True by done. simpl.
    assert (Hresp' : succeeded (serve repr (Call (GET_ips sid) req e) S).1)
      by by rewrite Hserve.
    destruct (get_ips_succeeded sid req e S Hresp') as (s & count & Hs & Hadd & HS1).
    rewrite Hserve in HS1. simpl in HS1. subst S1.
    unfold session_field in Hn. rewrite Hs in Hn. simpl in Hn.
    rewrite Hn in Hadd. simpl in Hadd. injection Hadd as <-.
    assert (Hn1 : session_field (<[sid := <["student_count" := PInt (n + 1)]> s]> S)
                    sid "student_count" = Some (PInt (n + 1))).
    { unfold session_field. rewrite lookup_insert_eq. simpl.
      by rewrite lookup_insert_eq. }
    specialize (IH _ _ Hn1 Hrs'). rewrite Hrest in IH. simpl in IH.
    rewrite IH. do 2 f_equal. unfold policy_fetches. lia.
Qed.

Lemma create_session_created req e (S : registry) :
  status_code (serve repr (Call POST_session_create req e) S).1 = 201 →
  ∃ s, (serve repr (Call POST_session_create req e) S).2
       = <[created_id e := s]> S ∧
       s !! "status" = Some (PStr "active") ∧
       s !! "logs" = Some (PList []) ∧
       s !! "student_count" = Some (PInt 0) ∧
       s !! "allowed_ips" = Some (PList []) ∧
       s !! "ended_at" = Some PNone ∧
       s !! "admin_token" = Some (PStr (token_hex e)).
Proof.
  unfold serve, view_function, create_session.
  cbn [call_route call_request call_env].
  destruct (dict_get _ _ _) as [name|ex] eqn:E; simpl.
  - intros _. eexists. split; [reflexivity|].
    split_and!;
      by repeat (rewrite lookup_insert_eq || rewrite lookup_insert_ne by done).
  - unfold dict_get in E. by destruct (py_or _ _); simplify_eq.
Qed.

(** C2. [get_status] never changes the registry, so never [student_count].
    Along any sequence of successful [get_status] and [get_ips] calls on one
    session the counter grows by exactly the number of [get_ips] calls.  For
    a session just made by [create_session], any interleaving of ten
    [get_status] and three [get_ips] calls, all successful, leaves
    [student_count] at 3. *)
Theorem student_count_counts_policy_fetches sid cs (S : registry) :
  Forall (λ c, call_route c = GET_status sid ∨ call_route c = GET_ips sid) cs →
  Forall succeeded (serve_all repr cs S).1 →
  (∀ req e, (serve repr (Call (GET_status sid) req e) S).2 = S) ∧
  (∀ n, session_field S sid "student_count" = Some (PInt n) →
        session_field (serve_all repr cs S).2 sid "student_count"
        = Some (PInt (n + Z.of_nat (policy_fetches sid cs)))) ∧
  (∀ req0 e0 S0,
     status_code (serve repr (Call POST_session_create req0 e0) S0).1 = 201 →
     S = (serve repr (Call POST_session_create req0 e0) S0).2 →
     sid = created_id e0 →
     status_polls sid cs = 10%nat →
     policy_fetches sid cs = 3%nat →
     session_field (serve_all repr cs S).2 sid "student_count"
     = Some (PInt 3)).
Proof.
  intros Hcs Hok. split_and!.
  - intros req e. apply get_status_reads.
  - intros n Hn. by apply student_count_after.
  - intros req0 e0 S0 Hcreated -> -> _ Hfetches.
    destruct (create_session_created req0 e0 S0 Hcreated)
      as (s & HS & _ & _ & Hcount & _).
    rewrite (student_count_after _ _ _ 0); try done.
    + by rewrite Hfetches.
    + rewrite HS. unfold session_field. by rewrite lookup_insert_eq.
Qed.

(** *** The log window *)

Lemma lastn_short {A} n (l : list A) : (length l ≤ n)%nat → lastn n l = l.
Proof. intros H. unfold lastn. by replace (length l - n)%nat with 0%nat by lia. Qed.

Lemma length_lastn {A} n (l : list A) : length (lastn n l) = (length l `min` n)%nat.
Proof. unfold lastn. rewrite length_drop. lia. Qed.

Lemma lastn_app_lastn {A} n (l k : list A) :
  lastn n (lastn n l ++ k) = lastn n (l ++ k).
Proof.
  destruct (decide (length l ≤ n)%nat) as [Hle|Hgt].
  { by rewrite (lastn_short n l). }
  unfold lastn at 1 3. rewrite !length_app, length_lastn.
  replace (length l `min` n + length k - n)%nat with (length k) by lia.
  replace (length l + length k - n)%nat
    with ((length l - n) + length k)%nat by lia.
  unfold lastn. rewrite <- drop_drop. f_equal.
  rewrite drop_app_le by lia. done.
Qed.

Lemma post_log_succeeded sid req e (S : registry) :
  succeeded (serve repr (Call (POST_log sid) req e) S).1 →
  ∃ s l,
    S !! sid = Some s ∧
    s !! "logs" = Some (PList l) ∧
    (serve repr (Call (POST_log sid) req e) S).2
    = <[sid := <["logs" := PList (lastn 1000 (l ++ [log_entry (Call (POST_log sid) req e)]))]> s]> S.
Proof.
  unfold serve, view_function, post_log, get_session, log_entry.
  cbn [call_route call_request call_env].
  destruct (S !! sid) as [s|]; [|simpl; intros; failed_branch].
  destruct (negb _); [simpl; intros; failed_branch|].
  destruct (py_or (get_json_silent req) (PDict ∅)) as [| | | | |d];
    try (sm_cases; intros; failed_branch).
  sm_cases; intros; try failed_branch;
    match goal with
    | H : item s "logs" = Ret (PList ?l) |- _ =>
        unfold item in H; destruct (s !! "logs") eqn:Hlogs; simplify_eq/=;
        eexists s, l; split_and!; try done
    end.
  - by rewrite insert_insert_eq.
  - rewrite lastn_short; [done|]. by apply Nat.ltb_ge.
Qed.

Lemma logs_after sid cs (S : registry) l0 :
  session_field S sid "logs" = Some (PList l0) →
  (length l0 ≤ 1000)%nat →
  Forall (λ c, call_route c = POST_log sid) cs →
  Forall succeeded (serve_all repr cs S).1 →
  session_field (serve_all repr cs S).2 sid "logs"
  = Some (PList (lastn 1000 (l0 ++ map log_entry cs))).
Proof.
  intros Hl0 Hlen Hcs. revert S l0 Hl0 Hlen.
  induction Hcs as [|[r req e] cs Hr _ IH]; intros S l0 Hl0 Hlen Hok.
  { simpl. by rewrite app_nil_r, lastn_short. }
  simpl in Hr. subst r. simpl in *.
  destruct (serve repr (Call (POST_log sid) req e) S) as [resp S1] eqn:Hserve.
  destruct (serve_all repr cs S1) as [rs S2] eqn:Hrest. simpl in *.
  apply Forall_cons in Hok as [Hresp Hrs].
  assert (Hresp' : succeeded (serve repr (Call (POST_log sid) req e) S).1)
    by by rewrite Hserve.
  destruct (post_log_succeeded sid req e S Hresp') as (s & l & Hs & Hlogs & HS1).
  rewrite Hserve in HS1. simpl in HS1. subst S1.
  unfold session_field in Hl0. rewrite Hs in Hl0. simpl in Hl0.
  rewrite Hlogs in Hl0. injection Hl0 as ->.
  set (l1 := lastn 1000 (l0 ++ [log_entry (Call (POST_log sid) req e)])) in *.
  assert (Hl1 : session_field (<[sid := <["logs" := PList l1]> s]> S) sid "logs"
                = Some (PList l1)).
  { unfold session_field. rewrite lookup_insert_eq. simpl.
    by rewrite lookup_insert_eq. }
  assert (Hlen1 : (length l1 ≤ 1000)%nat).
  { unfold l1. rewrite length_lastn. lia. }
  assert (Hrs' : Forall succeeded
            (serve_all repr cs (<[sid := <["logs" := PList l1]> s]> S)).1)
    by by rewrite Hrest.
  specialize (IH _ _ Hl1 Hlen1 Hrs'). rewrite Hrest in IH. simpl in IH.
  rewrite IH. unfold l1. rewrite lastn_app_lastn.
  by rewrite <- app_assoc.
Qed.

(** C3. Along any sequence of successful [post_log] calls on a session whose
    log holds at most 1000 entries (a new session's log is empty), the log
    afterwards is the last 1000 entries, in append order, of the old log
    followed by the appended entries, so it never holds more than 1000; after
    1500 appends to a new session it holds exactly the appended entries 501
    to 1500. *)
Theorem log_keeps_last_1000 sid cs (S : registry) l0 :
  session_field S sid "logs" = Some (PList l0) →
  (length l0 ≤ 1000)%nat →
  Forall (λ c, call_route c = POST_log sid) cs →
  Forall succeeded (serve_all repr cs S).1 →
  ∃ logs,
    session_field (serve_all repr cs S).2 sid "logs" = Some (PList logs) ∧
    logs = lastn 1000 (l0 ++ map log_entry cs) ∧
    (length logs ≤ 1000)%nat ∧
    (l0 = [] → length cs = 1500%nat →
     logs = drop 500 (map log_entry cs) ∧ length logs = 1000%nat).
Proof.
  intros Hl0 Hlen Hcs Hok. eexists. split; [by apply logs_after|].
  split; [done|]. split.
  - rewrite length_lastn. lia.
  - intros -> H1500. simpl. unfold lastn.
    rewrite length_drop, !length_map, H1500. done.
Qed.

(** ** Further properties of the handlers *)

(** *** What each route does to its record *)

Lemma item_Ret s key v : item s key = Ret v → s !! key = Some v.
Proof. unfold item. destruct (s !! key); by intros [= <-]. Qed.

Lemma session_route_effect r sid req e :
  route_session r = Some sid →
  ∃ rest : SM response,
    view_function repr r req e = get_session sid rest ∧
    ∀ s, effect_of r e s (rest s).2.
Proof.
  destruct r; simpl; intros [= <-]; eexists; (split; [reflexivity|]);
    intros s; sm_cases; unfold ips_record, ended_record;
    rewrite ?insert_insert_eq; eauto 8.
  all: right; eexists _, _; (split; [by apply item_Ret|]).
  all: try done.
  match goal with
  | |- <["logs" := PList ?x]> s = _ =>
      rewrite <- (lastn_short 1000 x) by (by apply Nat.ltb_ge)
  end.
  reflexivity.
Qed.

Lemma get_session_result {A} sid (rest : SM A) (S : registry) :
  (get_session sid rest S).2 = S ∨
  ∃ s, S !! sid = Some s ∧ s ≠ ∅ ∧
       (get_session sid rest S).2 = <[sid := (rest s).2]> S.
Proof.
  unfold get_session. destruct (S !! sid) as [s|]; [|by left].
  destruct (negb (truthy (PDict s))) eqn:E; [by left|].
  right. exists s. split; [done|]. split.
  - apply truthy_dict. by destruct (truthy (PDict s)).
  - by destruct (rest s).
Qed.

Lemma effect_keeps_other_keys r e s s' key :
  effect_of r e s s' → key ∉ writes r → s' !! key = s !! key.
Proof.
  intros Heff Hkey.
  destruct r; simpl in *; try (by subst);
    rewrite ?not_elem_of_cons in Hkey.
  - destruct Hkey as (? & ? & _).
    destruct Heff as [->|[l ->]]; [done|]. unfold ips_record.
    by rewrite !lookup_insert_ne by congruence.
  - destruct Hkey as (? & _).
    destruct Heff as [->|(count & _ & ->)]; [done|].
    by rewrite lookup_insert_ne by congruence.
  - destruct Hkey as (? & ? & _).
    destruct Heff as [->| ->]; [done|]. unfold ended_record.
    by rewrite !lookup_insert_ne by congruence.
  - destruct Hkey as (? & _).
    destruct Heff as [->|(l & entry & _ & ->)]; [done|].
    by rewrite lookup_insert_ne by congruence.
Qed.

Lemma serve_session_route r sid req e (S : registry) :
  route_session r = Some sid →
  (serve repr (Call r req e) S).2 = S ∨
  ∃ s s', S !! sid = Some s ∧ s ≠ ∅ ∧ effect_of r e s s' ∧
          (serve repr (Call r req e) S).2 = <[sid := s']> S.
Proof.
  intros Hr. unfold serve. cbn [call_route call_request call_env].
  destruct (session_route_effect r sid req e Hr) as (rest & -> & Heff).
  destruct (get_session_result sid rest S) as [H|(s & Hs & Hne & H)].
  - left. by destruct (get_session sid rest S).
  - right. exists s, (rest s).2. split_and!; try done.
    by destruct (get_session sid rest S).
Qed.

(** X1. A session-scoped route assigns only the keys of its own handler:
    [allowed_ips] and [ips_updated] for [set_ips], [student_count] for
    [get_ips], [status] and [ended_at] for [end_session], [logs] for
    [post_log], none for [get_status], [get_logs] and [get_info].  Every
    other field of every record is the same after the call, whatever the
    request and whether the call succeeds or fails. *)
Theorem route_assigns_only_its_keys r sid req e (S : registry) sid' key :
  route_session r = Some sid →
  sid' ≠ sid ∨ key ∉ writes r →
  session_field (serve repr (Call r req e) S).2 sid' key
  = session_field S sid' key.
Proof.
  intros Hr Hother.
  destruct (serve_session_route r sid req e S Hr)
    as [->|(s & s' & Hs & _ & Heff & ->)]; [done|].
  unfold session_field.
  destruct (decide (sid' = sid)) as [->|Hne].
  - rewrite lookup_insert_eq, Hs. simpl.
    destruct Hother as [?|Hkey]; [done|].
    by apply (effect_keeps_other_keys r e).
  - by rewrite lookup_insert_ne.
Qed.

Lemma serve_keeps_field c sid key (S : registry) :
  (call_route c = POST_session_create → created_id (call_env c) ≠ sid) →
  key ∉ writes (call_route c) →
  session_field (serve repr c S).2 sid key = session_field S sid key.
Proof.
  destruct c as [r req e]. simpl. intros Hfresh Hkey.
  destruct (route_session r) as [sid'|] eqn:Hr.
  - destruct (serve_session_route r sid' req e S Hr)
      as [->|(s & s' & Hs & _ & Heff & ->)]; [done|].
    unfold session_field.
    destruct (decide (sid = sid')) as [->|Hne].
    + rewrite lookup_insert_eq, Hs. simpl.
      by apply (effect_keeps_other_keys r e).
    + by rewrite lookup_insert_ne.
  - unfold serve, session_field. cbn [call_route call_request call_env].
    destruct r; try discriminate; simpl.
    + done.
    + pose proof (create_session_other req e sid S (Hfresh eq_refl)) as H.
      destruct (create_session req e S). simpl in *. by rewrite H.
Qed.

(** X2. The identifier, the two secrets, the contest name and the creation
    time of a session are never reassigned: along every sequence of calls in
    which no [create_session] draws the session's identifier, each of these
    five fields keeps its value. *)
Theorem creation_fields_are_immutable cs sid key (S : registry) :
  immutable_key key →
  Forall (λ c, call_route c = POST_session_create →
               created_id (call_env c) ≠ sid) cs →
  session_field (serve_all repr cs S).2 sid key = session_field S sid key.
Proof.
  intros Hkey Hcs. revert S.
  induction Hcs as [|c cs Hc _ IH]; intros S; [done|].
  simpl.
  assert (Hstep : session_field (serve repr c S).2 sid key
                  = session_field S sid key).
  { apply serve_keeps_field; [done|].
    destruct Hkey as [->|[->|[->|[->| ->]]]]; destruct (call_route c); simpl;
      repeat (apply not_elem_of_cons; split; [done|]);
      apply not_elem_of_nil. }
  destruct (serve repr c S) as [r S1]. simpl in Hstep.
  specialize (IH S1). destruct (serve_all repr cs S1). simpl in *.
  by rewrite IH.
Qed.

(** *** The shape of the records *)

Ltac wf_lookup :=
  repeat (rewrite lookup_insert_eq || rewrite lookup_insert_ne by done).

Lemma effect_keeps_wf r e sid s s' :
  wf_session sid s → effect_of r e s s' → wf_session sid s'.
Proof.
  intros Hwf Heff.
  destruct r; simpl in Heff; try (by subst).
  - destruct Heff as [->|[l ->]]; [done|].
    destruct Hwf as (Hid & Hcode & Htok & Hname & Hips & Hat & Hst & Hlogs & Hn & Hup).
    unfold wf_session, ips_record. wf_lookup. split_and!; eauto.
  - destruct Heff as [->|(count & Hadd & ->)]; [done|].
    destruct Hwf as (Hid & Hcode & Htok & Hname & Hips & Hat & Hst & Hlogs & Hn & Hup).
    destruct Hn as (n & Hn & Hpos). rewrite Hn in Hadd. simpl in Hadd.
    injection Hadd as <-.
    unfold wf_session. wf_lookup. split_and!; eauto.
    exists (n + 1). split; [done|lia].
  - destruct Heff as [->| ->]; [done|].
    destruct Hwf as (Hid & Hcode & Htok & Hname & Hips & Hat & Hst & Hlogs & Hn & Hup).
    unfold wf_session, ended_record. wf_lookup. split_and!; eauto.
  - destruct Heff as [->|(l & entry & Hl & ->)]; [done|].
    destruct Hwf as (Hid & Hcode & Htok & Hname & Hips & Hat & Hst & Hlogs & Hn & Hup).
    unfold wf_session. wf_lookup. split_and!; eauto.
    eexists. split; [done|]. rewrite length_lastn. lia.
Qed.

Lemma create_session_wf req e (S : registry) :
  wf_registry S → wf_registry (create_session req e S).2.
Proof.
  intros Hwf. unfold create_session.
  destruct (dict_get _ _ _) as [name|ex]; simpl; [|done].
  intros sid s. destruct (decide (sid = upper (substring 0 8 (uuid4 e)))) as [->|Hne].
  - rewrite lookup_insert_eq. intros [= <-].
    unfold wf_session, dict_of. simpl. wf_lookup.
    split_and!; eauto.
    + exists []. split; [done|simpl; lia].
    + by exists 0.
  - rewrite lookup_insert_ne by done. apply Hwf.
Qed.

Lemma serve_keeps_wf c (S : registry) :
  wf_registry S → wf_registry (serve repr c S).2.
Proof.
  destruct c as [r req e]. intros Hwf.
  destruct (route_session r) as [sid|] eqn:Hr.
  - destruct (serve_session_route r sid req e S Hr)
      as [->|(s & s' & Hs & _ & Heff & ->)]; [done|].
    intros sid' s0. destruct (decide (sid' = sid)) as [->|Hne].
    + rewrite lookup_insert_eq. intros [= <-].
      apply (effect_keeps_wf r e sid s); [by apply Hwf|done].
    + rewrite lookup_insert_ne by done. apply Hwf.
  - unfold serve. cbn [call_route call_request call_env].
    destruct r; try discriminate; simpl; [done|].
    pose proof (create_session_wf req e S Hwf) as H.
    by destruct (create_session req e S).
Qed.

(** X3. The shape of a record is an invariant of the service: when every
    record of the registry is filed under its own [session_id], has text
    secrets, a list in [allowed_ips], at most 1000 log entries, a
    non-negative integer [student_count], and is either "active" with
    [ended_at] still [None] or "ended" with a text [ended_at], the same holds
    after any sequence of calls.  The empty registry of a starting server has
    this shape, so every registry the server ever reaches has it. *)
Theorem reachable_registry_is_well_formed cs (S : registry) :
  wf_registry S → wf_registry (serve_all repr cs S).2.
Proof.
  revert S. induction cs as [|c cs IH]; intros S Hwf; [done|].
  simpl. pose proof (serve_keeps_wf c S Hwf) as Hstep.
  destruct (serve repr c S) as [r S1]. simpl in Hstep.
  specialize (IH S1 Hstep). by destruct (serve_all repr cs S1).
Qed.

(** *** Client errors *)

Lemma item_not_http s key code description :
  item s key ≠ Raise (HTTPException code description).
Proof. unfold item. by destruct (s !! key). Qed.

Lemma dict_get_not_http x key dflt code description :
  dict_get x key dflt ≠ Raise (HTTPException code description).
Proof. by destruct x. Qed.

Lemma py_add1_not_http x code description :
  py_add1 x ≠ Raise (HTTPException code description).
Proof. by destruct x. Qed.

Lemma py_len_not_http x code description :
  py_len x ≠ Raise (HTTPException code description).
Proof. by destruct x. Qed.

Ltac not_http :=
  match goal with
  | H : item _ _ = Raise (HTTPException _ _) |- _ =>
      by destruct (item_not_http _ _ _ _ H)
  | H : dict_get _ _ _ = Raise (HTTPException _ _) |- _ =>
      by destruct (dict_get_not_http _ _ _ _ _ H)
  | H : py_add1 _ = Raise (HTTPException _ _) |- _ =>
      by destruct (py_add1_not_http _ _ _ H)
  | H : py_len _ = Raise (HTTPException _ _) |- _ =>
      by destruct (py_len_not_http _ _ _ H)
  end.

Lemma session_route_fails_clean r sid req e :
  route_session r = Some sid →
  ∃ rest : SM response,
    view_function repr r req e = get_session sid rest ∧ fails_clean rest.
Proof.
  destruct r; simpl; intros [= <-]; eexists; (split; [reflexivity|]);
    intros s; sm_cases; not_http.
Qed.

(** X4. A call answered with 400, 403 or 404 has changed nothing: on every
    route and for every request the registry after such a response is the
    registry before it.  In particular a refused [get_ips] does not count a
    student and a refused [post_log] logs nothing. *)
Theorem client_errors_change_nothing c (S : registry) :
  client_error (serve repr c S).1 → (serve repr c S).2 = S.
Proof.
  destruct c as [r req e]. unfold serve, client_error.
  cbn [call_route call_request call_env].
  destruct (route_session r) as [sid|] eqn:Hr.
  - destruct (session_route_fails_clean r sid req e Hr) as (rest & -> & Hclean).
    unfold get_session.
    destruct (S !! sid) as [s|] eqn:Hs; [|done].
    destruct (negb _); [done|].
    specialize (Hclean s). destruct (rest s) as [[resp|ex] s']; simpl in *.
    + unfold handle_exception. simpl. rewrite Hclean. lia.
    + destruct ex; unfold handle_exception; simpl; try lia.
      subst s'. intros _. by apply insert_id.
  - destruct r; try discriminate; simpl.
    + done.
    + unfold create_session. destruct (dict_get _ _ _); simpl; [|done].
      unfold handle_exception. simpl. lia.
Qed.

(** *** The student credential *)

Lemma require_code_spec req (s : dict) code :
  s !! "session_code" = Some (PStr code) →
  require_code repr req s
  = if is_ascii (presented_code req) && is_ascii code
    then if String.eqb (presented_code req) code
         then Ret () else abort 403 "Invalid session code"
    else Raise TypeError.
Proof.
  intros Hcode.
  unfold require_code, presented_code, py_or, headers_get, args_get, item.
  rewrite Hcode. simpl.
  destruct (headers req !! "X-Session-Code") as [c|]; simpl;
    [destruct (String.eqb c ""); simpl|];
    unfold compare_digest; destruct (_ && _); simpl; try done;
    by destruct (String.eqb _ code).
Qed.

Lemma wf_nonempty sid s : wf_session sid s → s ≠ ∅.
Proof. intros (Hid & _). by apply (has_key_nonempty _ _ _ Hid). Qed.

Lemma get_status_authorized sid req e (S : registry) s :
  S !! sid = Some s → wf_session sid s →
  require_code repr req s = Ret () →
  serve repr (Call (GET_status sid) req e) S = (status_response s, S).
Proof.
  intros Hs Hwf Hauth.
  pose proof (wf_nonempty sid s Hwf) as Hne.
  destruct Hwf as (_ & _ & _ & _ & [ips Hips] & [t Ht] & Hst & _).
  assert (∃ st, s !! "status" = Some st) as [st Hstatus]
    by (destruct Hst as [[? _]|[? _]]; eauto).
  unfold serve, view_function, get_status.
  cbn [call_route call_request call_env].
  erewrite get_session_found by done.
  sm_simpl. rewrite Hauth. simpl. unfold item, status_response.
  rewrite Hstatus, Hips, Ht. unfold handle_exception. simpl.
  by rewrite (insert_id S sid s Hs).
Qed.

(** X5. [get_status] on a well-formed session compares one text with the
    session code: the [X-Session-Code] header when it is present and not
    empty, the query parameter [code] otherwise.  For ASCII texts the call
    answers 200 with the record's status, addresses and update time exactly
    when that text equals the code, and the 403 response otherwise; the
    registry is unchanged either way. *)
Theorem get_status_checks_presented_code sid req e (S : registry) s code :
  S !! sid = Some s → wf_session sid s →
  s !! "session_code" = Some (PStr code) →
  is_ascii code = true → is_ascii (presented_code req) = true →
  serve repr (Call (GET_status sid) req e) S
  = (if String.eqb (presented_code req) code
     then status_response s
     else error_handler 403 "Invalid session code", S).
Proof.
  intros Hs Hwf Hcode Hascii Hascii'.
  pose proof (require_code_spec req s code Hcode) as Hspec.
  rewrite Hascii, Hascii' in Hspec. simpl in Hspec.
  destruct (String.eqb (presented_code req) code).
  - by apply get_status_authorized.
  - unfold serve, view_function, get_status.
    cbn [call_route call_request call_env].
    erewrite get_session_found by eauto using wf_nonempty.
    sm_simpl. rewrite Hspec. unfold handle_exception. simpl.
    by rewrite insert_id.
Qed.

(** X6. A student request whose presented code has a character outside
    ASCII is not refused but fails: [compare_digest] raises, and each of
    [get_ips], [get_status] and [post_log] answers with the server's 500
    response, leaving the registry unchanged. *)
Theorem non_ascii_code_is_a_server_error r sid req e (S : registry) s code :
  student_route r sid →
  S !! sid = Some s →
  s !! "session_code" = Some (PStr code) →
  is_ascii (presented_code req) = false →
  serve repr (Call r req e) S = (Response 500 None, S).
Proof.
  intros Hr Hs Hcode Hascii.
  pose proof (require_code_spec req s code Hcode) as Hspec.
  rewrite Hascii in Hspec. simpl in Hspec.
  pose proof (has_key_nonempty _ _ _ Hcode) as Hne.
  unfold serve. cbn [call_route call_request call_env].
  destruct Hr as [->|[->| ->]]; unfold view_function;
    [unfold get_ips | unfold get_status | unfold post_log];
    erewrite get_session_found by done;
    sm_simpl; rewrite Hspec; unfold handle_exception; simpl;
    by rewrite insert_id.
Qed.

(** *** Reading back what the administrator wrote *)

Lemma status_response_fields s :
  status_code (status_response s) = 200 ∧
  response_field (status_response s) "status"
  = Some (default PNone (s !! "status")) ∧
  response_field (status_response s) "allowed_ips"
  = Some (default PNone (s !! "allowed_ips")) ∧
  response_field (status_response s) "updated_at"
  = Some (default (default PNone (s !! "created_at")) (s !! "ips_updated")).
Proof.
  unfold status_response, response_field, dict_of. simpl.
  split_and!; [done|..]; by wf_lookup.
Qed.

Lemma set_ips_list sid req e (S : registry) s d l :
  S !! sid = Some s → s ≠ ∅ →
  require_admin repr req s = Ret () →
  py_or (get_json_silent req) (PDict ∅) = PDict d →
  default (PList []) (d !! "allowed_ips") = PList l →
  serve repr (Call (POST_ips sid) req e) S
  = (ips_response l, <[sid := ips_record e l s]> S).
Proof.
  intros Hs Hne Hauth Hdata Hl.
  unfold serve, view_function, set_ips.
  cbn [call_route call_request call_env].
  erewrite get_session_found by done.
  rewrite Hdata. sm_simpl. rewrite Hauth. simpl. by rewrite Hl.
Qed.

(** X7. A pushed policy is what students are served next: after an
    authorized [set_ips] with the list [l] at some time, an authorized
    [get_status] on the same well-formed session answers 200 with
    [allowed_ips] equal to [l], [updated_at] equal to the time of the push,
    and the status the session had. *)
Theorem pushed_policy_is_served sid areq sreq e1 e2 (S : registry) s d l :
  S !! sid = Some s → wf_session sid s →
  require_admin repr areq s = Ret () →
  py_or (get_json_silent areq) (PDict ∅) = PDict d →
  default (PList []) (d !! "allowed_ips") = PList l →
  require_code repr sreq s = Ret () →
  ∃ resp,
    (serve_all repr [Call (POST_ips sid) areq e1;
                     Call (GET_status sid) sreq e2] S).1
    = [ips_response l; resp] ∧
    status_code resp = 200 ∧
    response_field resp "allowed_ips" = Some (PList l) ∧
    response_field resp "updated_at" = Some (PStr (now_iso e1)) ∧
    response_field resp "status" = s !! "status".
Proof.
  intros Hs Hwf Hadmin Hdata Hl Hcode.
  pose proof (wf_nonempty sid s Hwf) as Hne.
  assert (Hwf1 : wf_session sid (ips_record e1 l s)).
  { apply (effect_keeps_wf (POST_ips sid) e1 sid s); [done|]. simpl. eauto. }
  assert (Hcode1 : require_code repr sreq (ips_record e1 l s) = Ret ()).
  { unfold ips_record. by rewrite !require_code_insert. }
  simpl. rewrite (set_ips_list sid areq e1 S s d l) by done.
  rewrite (get_status_authorized sid sreq e2 _ (ips_record e1 l s))
    by (done || by rewrite lookup_insert_eq).
  exists (status_response (ips_record e1 l s)). split; [done|].
  destruct (status_response_fields (ips_record e1 l s)) as (-> & Hst & -> & ->).
  rewrite Hst. unfold ips_record. wf_lookup. simpl.
  destruct Hwf as (_ & _ & _ & _ & _ & _ & [[-> _]|[-> _]] & _); done.
Qed.

(** X8. Ending a session does not lock students out: after an authorized
    [end_session] on a well-formed session, an authorized [get_status]
    answers 200 with status "ended" and the addresses the session had. *)
Theorem ended_session_still_serves_status sid areq sreq e1 e2 (S : registry) s :
  S !! sid = Some s → wf_session sid s →
  require_admin repr areq s = Ret () →
  require_code repr sreq s = Ret () →
  ∃ resp,
    (serve_all repr [Call (POST_end sid) areq e1;
                     Call (GET_status sid) sreq e2] S).1
    = [ended_response e1; resp] ∧
    status_code resp = 200 ∧
    response_field resp "status" = Some (PStr "ended") ∧
    response_field resp "allowed_ips" = s !! "allowed_ips".
Proof.
  intros Hs Hwf Hadmin Hcode.
  pose proof (wf_nonempty sid s Hwf) as Hne.
  assert (Hwf1 : wf_session sid (ended_record e1 s)).
  { apply (effect_keeps_wf (POST_end sid) e1 sid s); [done|]. simpl. eauto. }
  assert (Hcode1 : require_code repr sreq (ended_record e1 s) = Ret ()).
  { unfold ended_record. by rewrite !require_code_insert. }
  simpl. rewrite (end_session_authorized sid areq e1 S s) by done.
  rewrite (get_status_authorized sid sreq e2 _ (ended_record e1 s))
    by (done || by rewrite lookup_insert_eq).
  exists (status_response (ended_record e1 s)). split; [done|].
  destruct (status_response_fields (ended_record e1 s)) as (-> & -> & -> & _).
  rewrite ended_record_status. unfold ended_record. wf_lookup. simpl.
  destruct Hwf as (_ & _ & _ & _ & [ips ->] & _); done.
Qed.

(** *** The administrator's credential and views *)

Lemma presents_token_authorized req (s : dict) t :
  s !! "admin_token" = Some (PStr t) → t ≠ "" → is_ascii t = true →
  presents_token req t →
  require_admin repr req s = Ret ().
Proof.
  intros Htok Hne Hascii [[Hjson Hhdr]|[(Hjson & Hhdr & d & Hbody & Hfield)|[Hjson Harg]]].
  - by apply (require_admin_json_header req s t).
  - unfold require_admin, headers_get, request_json, item.
    rewrite Hjson, Htok, Hbody.
    destruct (headers req !! "X-Admin-Token") as [h|]; simpl in *;
      [subst h|]; simpl; rewrite Hfield; simpl;
      by rewrite compare_digest_same.
  - rewrite require_admin_not_json by done. unfold item.
    rewrite Htok, Harg. simpl. by rewrite compare_digest_same.
Qed.

Lemma require_admin_ext req (s1 s2 : dict) :
  s1 !! "admin_token" = s2 !! "admin_token" →
  require_admin repr req s1 = require_admin repr req s2.
Proof. intros H. unfold require_admin, item. by rewrite H. Qed.

Lemma filter_admin_token (s : dict) :
  filter (λ kv, kv.1 ≠ "admin_token") s = delete "admin_token" s.
Proof.
  apply map_eq. intros key. apply option_eq. intros v.
  rewrite map_lookup_filter_Some. simpl.
  destruct (decide (key = "admin_token")) as [->|Hne].
  - rewrite lookup_delete_eq. split; [by intros [_ ?]|done].
  - rewrite lookup_delete_ne by done. split; [by intros [? _]|done].
Qed.

(** X9. [get_info] shows the whole record but the token: for a request that
    carries the session's token in one of the three places [require_admin]
    reads, the response is 200 and its object is the record with the key
    [admin_token] removed, so every other field, the session code included,
    appears with its value; the registry is unchanged. *)
Theorem get_info_shows_all_but_the_token sid req e (S : registry) s t key :
  S !! sid = Some s →
  s !! "admin_token" = Some (PStr t) → t ≠ "" → is_ascii t = true →
  presents_token req t →
  serve repr (Call (GET_info sid) req e) S
  = (jsonify (delete "admin_token" s), S) ∧
  response_field (jsonify (delete "admin_token" s)) key
  = if decide (key = "admin_token") then None else s !! key.
Proof.
  intros Hs Htok Hne Hascii Hreq.
  pose proof (presents_token_authorized req s t Htok Hne Hascii Hreq) as Hauth.
  pose proof (has_key_nonempty _ _ _ Htok) as Hnonempty.
  split.
  - unfold serve, view_function, get_info.
    cbn [call_route call_request call_env].
    erewrite get_session_found by done.
    sm_simpl. rewrite Hauth. unfold handle_exception. simpl.
    by rewrite filter_admin_token, (insert_id S sid s Hs).
  - unfold response_field. simpl. case_decide as Hkey.
    + subst key. apply lookup_delete_eq.
    + by apply lookup_delete_ne.
Qed.

Lemma get_logs_authorized sid req e (S : registry) s logs :
  S !! sid = Some s →
  is_Some (s !! "contest_name") → is_Some (s !! "student_count") →
  s !! "logs" = Some (PList logs) →
  require_admin repr req s = Ret () →
  serve repr (Call (GET_logs sid) req e) S = (logs_response sid s logs, S).
Proof.
  intros Hs [name Hname] [count Hcount] Hlogs Hauth.
  pose proof (has_key_nonempty _ _ _ Hlogs) as Hne.
  unfold serve, view_function, get_logs.
  cbn [call_route call_request call_env].
  erewrite get_session_found by done.
  sm_simpl. rewrite Hauth. simpl. unfold item, logs_response.
  rewrite Hname, Hcount, Hlogs. unfold handle_exception. simpl.
  by rewrite (insert_id S sid s Hs).
Qed.

Lemma serve_all_keeps_field cs sid key (S : registry) :
  Forall (λ c, (call_route c = POST_session_create →
                created_id (call_env c) ≠ sid) ∧
               key ∉ writes (call_route c)) cs →
  session_field (serve_all repr cs S).2 sid key = session_field S sid key.
Proof.
  intros Hcs. revert S.
  induction Hcs as [|c cs [Hc Hkey] _ IH]; intros S; [done|].
  simpl. pose proof (serve_keeps_field c sid key S Hc Hkey) as Hstep.
  destruct (serve repr c S) as [r S1]. simpl in Hstep.
  specialize (IH S1). destruct (serve_all repr cs S1). simpl in *.
  by rewrite IH.
Qed.

(** X10. The administrator reads the log window: after any sequence of
    successful [post_log] calls on a well-formed session, an authorized
    [get_logs] answers with the last 1000 entries of the old log followed by
    the appended ones, a [log_count] equal to their number, which is the
    smaller of 1000 and the number of entries ever held, and the contest name
    and student count the session had. *)
Theorem admin_reads_the_log_window sid req e cs (S : registry) s l0 :
  S !! sid = Some s → wf_session sid s →
  s !! "logs" = Some (PList l0) →
  require_admin repr req s = Ret () →
  Forall (λ c, call_route c = POST_log sid) cs →
  Forall succeeded (serve_all repr cs S).1 →
  let window := lastn 1000 (l0 ++ map log_entry cs) in
  (serve repr (Call (GET_logs sid) req e) (serve_all repr cs S).2).1
  = logs_response sid s window ∧
  length window = ((length l0 + length cs) `min` 1000)%nat.
Proof.
  intros Hs Hwf Hl0 Hauth Hcs Hok window.
  assert (Hlen : (length l0 ≤ 1000)%nat).
  { destruct Hwf as (_ & _ & _ & _ & _ & _ & _ & (l & Hl & Hlen) & _).
    rewrite Hl0 in Hl. by injection Hl as <-. }
  assert (Hfield0 : session_field S sid "logs" = Some (PList l0)).
  { unfold session_field. by rewrite Hs. }
  pose proof (logs_after sid cs S l0 Hfield0 Hlen Hcs Hok) as Hlogs.
  assert (Hkeep : ∀ key, key ≠ "logs" →
            session_field (serve_all repr cs S).2 sid key = s !! key).
  { intros key Hkey. rewrite serve_all_keeps_field.
    - unfold session_field. by rewrite Hs.
    - eapply Forall_impl; [exact Hcs|]. intros c ->. simpl. split; [done|].
      apply not_elem_of_cons. split; [done|apply not_elem_of_nil]. }
  unfold session_field in Hlogs, Hkeep.
  destruct ((serve_all repr cs S).2 !! sid) as [s2|] eqn:Hs2; [|done].
  simpl in *. split.
  - rewrite (get_logs_authorized sid req e _ s2 window); try done.
    + simpl. unfold logs_response.
      by rewrite (Hkeep "contest_name"), (Hkeep "student_count").
    + rewrite (Hkeep "contest_name") by done.
      by destruct Hwf as (_ & _ & _ & ? & _).
    + rewrite (Hkeep "student_count") by done.
      destruct Hwf as (_ & _ & _ & _ & _ & _ & _ & _ & (n & -> & _) & _). eauto.
    + rewrite <- Hauth. apply require_admin_ext. by apply Hkeep.
  - unfold window. rewrite length_lastn, length_app, length_map. done.
Qed.

(** *** The identifiers [create_session] makes *)

Lemma is_digits_ascii s : is_digits s = true → is_ascii s = true.
Proof.
  unfold is_digits, is_ascii. induction s as [|c s IH]; simpl; [done|].
  intros [[H1 H2]%andb_prop Hs]%andb_prop. rewrite IH by done.
  apply N.leb_le in H2. rewrite andb_true_r. apply N.ltb_lt. lia.
Qed.

Lemma is_digits_char x s :
  is_digits s = true → is_digits (String (pretty_N_char x) s) = true.
Proof.
  intros Hs. unfold is_digits in *. simpl. rewrite Hs, andb_true_r.
  unfold pretty_N_char. by repeat case_match.
Qed.

Lemma is_digits_pretty_N_go x s :
  is_digits s = true → is_digits (pretty_N_go x s) = true.
Proof.
  revert s. induction (N.lt_wf_0 x) as [x _ IH]; intros s Hs.
  assert (x = 0 ∨ 0 < x)%N as [->|Hpos] by lia.
  - by rewrite pretty_N_go_0.
  - rewrite pretty_N_go_step by done. apply IH.
    + by apply N.div_lt.
    + by apply is_digits_char.
Qed.

Lemma is_digits_pretty_N (x : N) : is_digits (pretty x) = true.
Proof.
  unfold pretty, pretty_N. case_decide; [done|].
  by apply is_digits_pretty_N_go.
Qed.

Lemma is_ascii_pretty_Z (z : Z) : is_ascii (pretty z) = true.
Proof.
  destruct z as [|p|p]; [done|..].
  - apply is_digits_ascii. apply (is_digits_pretty_N (N.pos p)).
  - unfold pretty, pretty_Z.
    pose proof (is_digits_ascii _ (is_digits_pretty_N (N.pos p))) as H.
    unfold is_ascii in *. simpl. exact H.
Qed.

Lemma length_pretty_N_go_digit x s :
  (0 < x < 10)%N →
  String.length (pretty_N_go x s) = S (String.length s).
Proof.
  intros Hx. rewrite pretty_N_go_step by lia.
  replace (x `div` 10)%N with 0%N by (symmetry; apply N.div_small; lia).
  by rewrite pretty_N_go_0.
Qed.

Lemma length_pretty_four_digits (z : Z) :
  1000 ≤ z < 10000 → String.length (pretty z) = 4%nat.
Proof.
  intros Hz. destruct z as [|p|p]; try lia.
  change (pretty (Z.pos p)) with (pretty (N.pos p)).
  unfold pretty, pretty_N. rewrite decide_False by done.
  set (x := N.pos p). assert (1000 ≤ x < 10000)%N as Hx by lia.
  clearbody x.
  assert (H1 : (100 ≤ x `div` 10 < 1000)%N).
  { split; [apply N.div_le_lower_bound|apply N.Div0.div_lt_upper_bound]; lia. }
  assert (H2 : (10 ≤ (x `div` 10) `div` 10 < 100)%N).
  { split; [apply N.div_le_lower_bound|apply N.Div0.div_lt_upper_bound]; lia. }
  assert (H3 : (1 ≤ ((x `div` 10) `div` 10) `div` 10 < 10)%N).
  { split; [apply N.div_le_lower_bound|apply N.Div0.div_lt_upper_bound]; lia. }
  do 3 rewrite pretty_N_go_step by lia.
  by rewrite length_pretty_N_go_digit by lia.
Qed.

Lemma length_upper s : String.length (upper s) = String.length s.
Proof. induction s as [|c s IH]; simpl; [done|by rewrite IH]. Qed.

Lemma length_prefix n s :
  String.length (substring 0 n s) = (n `min` String.length s)%nat.
Proof.
  revert s. induction n as [|n IH]; intros [|c s]; simpl; try done.
  by rewrite IH.
Qed.

Lemma upper_ascii_upper c : upper_ascii (upper_ascii c) = upper_ascii c.
Proof. by destruct c as [[] [] [] [] [] [] [] []]. Qed.

Lemma upper_upper s : upper (upper s) = upper s.
Proof.
  induction s as [|c s IH]; simpl; [done|].
  by rewrite IH, upper_ascii_upper.
Qed.

(** X11. The identifiers of a new session have their format: when the
    random number is one [randbelow(9000)] can return and the UUID text has
    at least eight characters, a successful [create_session] answers with a
    [session_id] of exactly eight characters that [upper] leaves unchanged,
    and a [session_code] of exactly four decimal digits. *)
Theorem created_identifiers_have_their_format req e (S : registry) :
  0 ≤ randbelow e < 9000 →
  (8 ≤ String.length (uuid4 e))%nat →
  status_code (serve repr (Call POST_session_create req e) S).1 = 201 →
  ∃ id code,
    response_field (serve repr (Call POST_session_create req e) S).1
      "session_id" = Some (PStr id) ∧
    response_field (serve repr (Call POST_session_create req e) S).1
      "session_code" = Some (PStr code) ∧
    String.length id = 8%nat ∧ upper id = id ∧
    String.length code = 4%nat ∧ is_digits code = true.
Proof.
  intros Hrand Huuid.
  unfold serve, view_function, create_session.
  cbn [call_route call_request call_env].
  destruct (dict_get _ _ _) as [name|ex] eqn:E.
  - intros _. unfold handle_exception, response_field, dict_of. simpl.
    eexists _, _. wf_lookup. split_and!; try done.
    + rewrite length_upper, length_prefix. lia.
    + apply upper_upper.
    + apply length_pretty_four_digits. lia.
    + destruct (randbelow e + 1000) as [|p|p] eqn:Hp; try lia.
      apply (is_digits_pretty_N (N.pos p)).
  - unfold dict_get in E.
    destruct (py_or _ _); simplify_eq; unfold handle_exception; by simpl.
Qed.

(** *** A new session *)

Lemma create_session_new req e (S : registry) :
  status_code (serve repr (Call POST_session_create req e) S).1 = 201 →
  ∃ s,
    (serve repr (Call POST_session_create req e) S).2
    = <[created_id e := s]> S ∧
    wf_session (created_id e) s ∧
    s !! "session_code" = Some (PStr (pretty (randbelow e + 1000))) ∧
    s !! "admin_token" = Some (PStr (token_hex e)) ∧
    s !! "status" = Some (PStr "active") ∧
    s !! "allowed_ips" = Some (PList []) ∧
    s !! "created_at" = Some (PStr (now_iso e)) ∧
    s !! "ips_updated" = None ∧
    response_field (serve repr (Call POST_session_create req e) S).1
      "session_id" = Some (PStr (created_id e)) ∧
    response_field (serve repr (Call POST_session_create req e) S).1
      "session_code" = Some (PStr (pretty (randbelow e + 1000))) ∧
    response_field (serve repr (Call POST_session_create req e) S).1
      "admin_token" = Some (PStr (token_hex e)).
Proof.
  unfold serve, view_function, create_session.
  cbn [call_route call_request call_env].
  destruct (dict_get _ _ _) as [name|ex] eqn:E.
  - intros _. unfold handle_exception, response_field, dict_of. simpl.
    eexists. split; [reflexivity|].
    unfold wf_session, created_id. wf_lookup.
    split_and!; eauto.
    + exists []. split; [done|simpl; lia].
    + by exists 0.
  - unfold dict_get in E.
    destruct (py_or _ _); simplify_eq; unfold handle_exception; by simpl.
Qed.

(** X12. The credentials a successful [create_session] answers with open the
    session it made.  A student request presenting the returned code gets
    200 from [get_status], with status "active", no addresses yet and the
    creation time as update time; when the token is not empty and ASCII, as
    the text of [token_hex] is, a request that carries the returned token
    where [require_admin] reads it gets 200 from [get_info], whose object
    shows the same code. *)
Theorem created_credentials_open_the_session req0 e0 (S0 : registry)
    sreq areq e1 e2 :
  status_code (serve repr (Call POST_session_create req0 e0) S0).1 = 201 →
  Some (PStr (presented_code sreq))
  = response_field (serve repr (Call POST_session_create req0 e0) S0).1
      "session_code" →
  token_hex e0 ≠ "" → is_ascii (token_hex e0) = true →
  presents_token areq (token_hex e0) →
  ∃ poll info,
    (serve_all repr [Call POST_session_create req0 e0;
                     Call (GET_status (created_id e0)) sreq e1;
                     Call (GET_info (created_id e0)) areq e2] S0).1
    = [(serve repr (Call POST_session_create req0 e0) S0).1; poll; info] ∧
    status_code poll = 200 ∧
    response_field poll "status" = Some (PStr "active") ∧
    response_field poll "allowed_ips" = Some (PList []) ∧
    response_field poll "updated_at" = Some (PStr (now_iso e0)) ∧
    status_code info = 200 ∧
    response_field info "session_code" = Some (PStr (presented_code sreq)) ∧
    response_field info "admin_token" = None.
Proof.
  intros Hcreated Hpresented Hne Hascii Hadmin.
  destruct (create_session_new req0 e0 S0 Hcreated)
    as (s & HS1 & Hwf & Hcode & Htok & Hst & Hips & Hat & Hup & _ & Hrcode & _).
  rewrite Hrcode in Hpresented. injection Hpresented as Hpresented.
  simpl. destruct (serve repr (Call POST_session_create req0 e0) S0)
    as [resp S1]. simpl in *. subst S1.
  assert (Hs : (<[created_id e0 := s]> S0 : registry) !! created_id e0 = Some s)
    by by rewrite lookup_insert_eq.
  assert (Hstudent : require_code repr sreq s = Ret ()).
  { rewrite (require_code_spec sreq s _ Hcode), Hpresented.
    by rewrite is_ascii_pretty_Z, String.eqb_refl. }
  rewrite (get_status_authorized _ sreq e1 _ s Hs Hwf Hstudent).
  pose proof (presents_token_authorized areq s _ Htok Hne Hascii Hadmin) as Hauth.
  assert (Hinfo : serve repr (Call (GET_info (created_id e0)) areq e2)
                    (<[created_id e0 := s]> S0)
                  = (jsonify (delete "admin_token" s), <[created_id e0 := s]> S0)).
  { unfold serve, view_function, get_info.
    cbn [call_route call_request call_env].
    erewrite get_session_found by eauto using wf_nonempty.
    sm_simpl. rewrite Hauth. unfold handle_exception. simpl.
    by rewrite filter_admin_token, (insert_id _ _ s Hs). }
  rewrite Hinfo.
  eexists _, _. split; [reflexivity|].
  destruct (status_response_fields s) as (-> & -> & -> & ->).
  rewrite Hst, Hips, Hat, Hup. simpl.
  unfold response_field. simpl.
  rewrite lookup_delete_ne by done. rewrite lookup_delete_eq.
  by rewrite Hcode, Hpresented.
Qed.

(** *** Bodies that are not objects *)

Lemma non_object_data req :
  non_object_body req →
  ∀ key dflt,
    dict_get (py_or (get_json_silent req) (PDict ∅)) key dflt
    = Raise AttributeError.
Proof.
  intros (Hjson & v & Hbody & Htruthy & Hnot) key dflt.
  unfold get_json_silent, py_or. rewrite Hjson, Hbody. simpl. rewrite Htruthy.
  destruct v; try done. by destruct (Hnot d).
Qed.

(** X13. A JSON body that is present and true as a condition but not an
    object (a non-empty array, say) is not defaulted to the empty object:
    the handler calls [get] on it and fails.  [create_session] then answers
    with the server's 500 response and files nothing, and so do an
    authorized [post_log], which logs nothing, and an authorized [set_ips],
    which changes nothing. *)
Theorem non_object_body_is_a_server_error req e (S : registry) :
  non_object_body req →
  serve repr (Call POST_session_create req e) S = (Response 500 None, S) ∧
  (∀ sid s, S !! sid = Some s → s ≠ ∅ →
            require_code repr req s = Ret () →
            serve repr (Call (POST_log sid) req e) S = (Response 500 None, S)) ∧
  (∀ sid s, S !! sid = Some s → s ≠ ∅ →
            require_admin repr req s = Ret () →
            serve repr (Call (POST_ips sid) req e) S = (Response 500 None, S)).
Proof.
  intros Hbody. pose proof (non_object_data req Hbody) as Hdata.
  unfold serve, view_function. cbn [call_route call_request call_env].
  split_and!.
  - unfold create_session. by rewrite Hdata.
  - intros sid s Hs Hne Hauth. unfold post_log.
    erewrite get_session_found by done.
    sm_simpl. rewrite Hauth. simpl. rewrite Hdata. simpl.
    by rewrite (insert_id S sid s Hs).
  - intros sid s Hs Hne Hauth. unfold set_ips.
    erewrite get_session_found by done.
    sm_simpl. rewrite Hauth. simpl. rewrite Hdata. simpl.
    by rewrite (insert_id S sid s Hs).
Qed.

(** *** The set of sessions *)

Lemma serve_dom c (S : registry) :
  call_route c ≠ POST_session_create → dom (serve repr c S).2 = dom S.
Proof.
  destruct c as [r req e]. simpl. intros Hr.
  destruct (route_session r) as [sid|] eqn:Hsid.
  - destruct (serve_session_route r sid req e S Hsid)
      as [->|(s & s' & Hs & _ & _ & ->)]; [done|].
    apply dom_insert_lookup_L. by rewrite Hs.
  - by destruct r.
Qed.

Lemma create_dom req e (S : registry) :
  dom S ⊆ dom (serve repr (Call POST_session_create req e) S).2 ∧
  (status_code (serve repr (Call POST_session_create req e) S).1 = 201 →
   dom (serve repr (Call POST_session_create req e) S).2
   = {[created_id e]} ∪ dom S).
Proof.
  unfold serve, view_function, create_session.
  cbn [call_route call_request call_env].
  destruct (dict_get _ _ _) as [name|ex] eqn:E; simpl.
  - rewrite dom_insert_L. split; [set_solver|done].
  - split; [done|]. unfold dict_get in E.
    destruct (py_or _ _); simplify_eq; unfold handle_exception; by simpl.
Qed.

Lemma serve_all_dom cs (S : registry) : dom S ⊆ dom (serve_all repr cs S).2.
Proof.
  revert S. induction cs as [|c cs IH]; intros S; [done|].
  simpl.
  assert (Hstep : dom S ⊆ dom (serve repr c S).2).
  { destruct (decide (call_route c = POST_session_create)) as [Hc|Hc].
    - destruct c as [r req e]. simpl in Hc. subst r. apply create_dom.
    - by rewrite serve_dom. }
  destruct (serve repr c S) as [r S1]. simpl in Hstep.
  specialize (IH S1). destruct (serve_all repr cs S1). simpl in *.
  by etrans.
Qed.

(** X14. Sessions are only ever added.  A call on any route but
    [create_session] leaves the set of session identifiers as it was; a
    successful [create_session] adds the identifier it drew; so along every
    sequence of calls every session that exists keeps existing.  [health]
    reports the number of sessions and changes nothing. *)
Theorem sessions_are_only_added c cs req e (S : registry) :
  (call_route c ≠ POST_session_create → dom (serve repr c S).2 = dom S) ∧
  (call_route c = POST_session_create →
   status_code (serve repr c S).1 = 201 →
   dom (serve repr c S).2 = {[created_id (call_env c)]} ∪ dom S) ∧
  dom S ⊆ dom (serve_all repr cs S).2 ∧
  serve repr (Call GET_health req e) S
  = (jsonify (dict_of [("status", PStr "ok");
                       ("sessions", PInt (Z.of_nat (size (dom S))));
                       ("time", PStr (now_iso e))]), S).
Proof.
  split_and!.
  - apply serve_dom.
  - destruct c as [r req' e']. simpl. intros ->. apply create_dom.
  - apply serve_all_dom.
  - unfold serve, view_function, health, handle_exception. simpl.
    by rewrite size_dom.
Qed.

(** *** The counter, whatever else is called *)

Lemma get_ips_on_wf sid req e (S : registry) s n :
  S !! sid = Some s → wf_session sid s →
  s !! "student_count" = Some (PInt n) →
  serve repr (Call (GET_ips sid) req e) S
  = match require_code repr req s with
    | Ret _ => (policy_response sid s,
                <[sid := <["student_count" := PInt (n + 1)]> s]> S)
    | Raise ex => (handle_exception (Raise ex), S)
    end.
Proof.
  intros Hs Hwf Hn.
  pose proof (wf_nonempty sid s Hwf) as Hne.
  destruct Hwf as (_ & _ & _ & [name Hname] & [ips Hips] & [t Ht] & Hst & _).
  assert (∃ st, s !! "status" = Some st) as [st Hstatus]
    by (destruct Hst as [[? _]|[? _]]; eauto).
  unfold serve, view_function, get_ips.
  cbn [call_route call_request call_env].
  erewrite get_session_found by done.
  sm_simpl. destruct (require_code repr req s) as [[]|ex]; simpl.
  - rewrite Hn. simpl. unfold item, policy_response. wf_lookup.
    rewrite Hname, Hips, Hstatus, Ht. simpl. by unfold handle_exception.
  - by rewrite (insert_id S sid s Hs).
Qed.

Lemma serve_keeps_field_of c sid key (S : registry) :
  (call_route c = POST_session_create → created_id (call_env c) ≠ sid) →
  (route_session (call_route c) = Some sid → key ∉ writes (call_route c)) →
  session_field (serve repr c S).2 sid key = session_field S sid key.
Proof.
  destruct c as [r req e]. simpl. intros Hfresh Hkey.
  destruct (route_session r) as [sid'|] eqn:Hr.
  - destruct (serve_session_route r sid' req e S Hr)
      as [->|(s & s' & Hs & _ & Heff & ->)]; [done|].
    unfold session_field.
    destruct (decide (sid = sid')) as [->|Hne].
    + rewrite lookup_insert_eq, Hs. simpl.
      apply (effect_keeps_other_keys r e); [done|by apply Hkey].
    + by rewrite lookup_insert_ne.
  - apply serve_keeps_field; [done|]. destruct r; try discriminate; simpl;
      apply not_elem_of_nil.
Qed.

(** X15. On a registry of well-formed records, and whatever else is called
    in between on this or any other session, [student_count] counts the
    [get_ips] calls on the session that were answered 200: along every
    sequence of calls in which no [create_session] draws the session's
    identifier, the counter ends at its old value plus the number of such
    calls.  A [get_ips] that is refused or fails does not count. *)
Theorem student_count_counts_successful_fetches cs sid (S : registry) n :
  wf_registry S →
  session_field S sid "student_count" = Some (PInt n) →
  Forall (λ c, call_route c = POST_session_create →
               created_id (call_env c) ≠ sid) cs →
  session_field (serve_all repr cs S).2 sid "student_count"
  = Some (PInt (n + Z.of_nat
       (counted_fetches sid cs (serve_all repr cs S).1))).
Proof.
  intros Hwf Hn Hcs. revert S n Hwf Hn.
  induction Hcs as [|c cs Hc _ IH]; intros S n Hwf Hn.
  { simpl. by rewrite Z.add_0_r. }
  simpl. pose proof (serve_keeps_wf c S Hwf) as Hwf1.
  destruct (decide (call_route c = GET_ips sid)) as [Hr|Hr].
  - destruct c as [r req e]. simpl in Hr. subst r.
    unfold session_field in Hn.
    destruct (S !! sid) as [s|] eqn:Hs; [|done]. simpl in Hn.
    pose proof (get_ips_on_wf sid req e S s n Hs (Hwf _ _ Hs) Hn) as Hserve.
    destruct (require_code repr req s) as [[]|ex] eqn:Hauth.
    + rewrite Hserve in *. simpl in *.
      assert (Hn1 : session_field
                (<[sid := <["student_count" := PInt (n + 1)]> s]> S)
                sid "student_count" = Some (PInt (n + 1))).
      { unfold session_field. rewrite lookup_insert_eq. simpl.
        by rewrite lookup_insert_eq. }
      specialize (IH _ _ Hwf1 Hn1).
      destruct (serve_all repr cs _) as [rs S2]. simpl in *.
      rewrite IH. unfold counted_fetches. simpl. rewrite filter_cons.
      rewrite decide_True by (by split). simpl. do 2 f_equal. lia.
    + rewrite Hserve in *. simpl in *.
      assert (Hn0 : session_field S sid "student_count" = Some (PInt n)).
      { unfold session_field. by rewrite Hs. }
      specialize (IH _ _ Hwf Hn0).
      destruct (serve_all repr cs S) as [rs S2]. simpl in *.
      rewrite IH. unfold counted_fetches. simpl. rewrite filter_cons.
      rewrite decide_False; [done|]. simpl. intros [_ Hok].
      by apply (failure_not_succeeded ex (require_code_failure _ _ _ Hauth)).
  - assert (Hstep : session_field (serve repr c S).2 sid "student_count"
                    = Some (PInt n)).
    { rewrite serve_keeps_field_of; [done|done|].
      intros Hsid. destruct (call_route c); simpl in *; try discriminate;
        injection Hsid as ->; try done;
        repeat (apply not_elem_of_cons; split; [done|]);
        apply not_elem_of_nil. }
    destruct (serve repr c S) as [r S1]. simpl in *.
    specialize (IH _ _ Hwf1 Hstep).
    destruct (serve_all repr cs S1) as [rs S2]. simpl in *.
    rewrite IH. unfold counted_fetches. simpl. rewrite filter_cons.
    rewrite decide_False; [done|]. simpl. by intros [? _].
Qed.

(** *** Defaults, overwriting and repetition *)

Lemma post_log_object sid req e (S : registry) s l d :
  S !! sid = Some s → s !! "logs" = Some (PList l) →
  require_code repr req s = Ret () →
  py_or (get_json_silent req) (PDict ∅) = PDict d →
  serve repr (Call (POST_log sid) req e) S
  = (jsonify (dict_of [("message", PStr "Logged")]),
     <[sid := <["logs" := PList (lastn 1000 (l ++ [entry_of e d]))]> s]> S).
Proof.
  intros Hs Hl Hauth Hdata.
  pose proof (has_key_nonempty _ _ _ Hl) as Hne.
  unfold serve, view_function, post_log.
  cbn [call_route call_request call_env].
  erewrite get_session_found by done.
  rewrite Hdata. sm_simpl. rewrite Hauth. simpl. unfold item. rewrite Hl.
  simpl. unfold handle_exception, entry_of, dict_of. simpl.
  destruct (1000 <? length (l ++ _))%nat eqn:Hlen; simpl.
  - by rewrite insert_insert_eq.
  - rewrite lastn_short; [done|]. by apply Nat.ltb_ge.
Qed.

(** X16. [post_log] accepts a sparse report: on an authorized request whose
    body is a JSON object, each of [student_id], [hostname], [event] and
    [detail] that the object lacks is logged as its default, "unknown" for
    the first and the empty text for the others, under the server's time;
    with no JSON content type, or a body that does not decode, the entry
    logged is the one made of the four defaults.  The call answers 200 in
    both cases. *)
Theorem post_log_defaults_missing_fields sid req e (S : registry) s l :
  S !! sid = Some s → s !! "logs" = Some (PList l) →
  require_code repr req s = Ret () →
  (∀ d, is_json req = true → json_body req = Some (PDict d) → d ≠ ∅ →
        serve repr (Call (POST_log sid) req e) S
        = (jsonify (dict_of [("message", PStr "Logged")]),
           <[sid := <["logs" := PList (lastn 1000 (l ++ [entry_of e d]))]> s]> S)) ∧
  (is_json req = false ∨ json_body req = None →
   serve repr (Call (POST_log sid) req e) S
   = (jsonify (dict_of [("message", PStr "Logged")]),
      <[sid := <["logs" := PList (lastn 1000 (l ++ [blank_entry e]))]> s]> S)).
Proof.
  intros Hs Hl Hauth. split.
  - intros d Hjson Hbody Hne. apply post_log_object; try done.
    unfold get_json_silent, py_or. rewrite Hjson, Hbody.
    change (default PNone (Some (PDict d))) with (PDict d).
    apply truthy_dict in Hne. by rewrite Hne.
  - intros Hnone.
    rewrite (post_log_object sid req e S s l ∅); try done.
    unfold get_json_silent.
    destruct Hnone as [-> | ->]; [done|by destruct (is_json req)].
Qed.

(** X17. A policy push without a payload empties the policy: an authorized
    [set_ips] whose JSON object has no [allowed_ips] field, or that has no
    JSON body, answers 200 with count 0 and sets [allowed_ips] to the empty
    list. *)
Theorem set_ips_without_payload_clears sid req e (S : registry) s d :
  S !! sid = Some s → s ≠ ∅ →
  require_admin repr req s = Ret () →
  py_or (get_json_silent req) (PDict ∅) = PDict d →
  d !! "allowed_ips" = None →
  serve repr (Call (POST_ips sid) req e) S
  = (ips_response [], <[sid := ips_record e [] s]> S) ∧
  response_field (ips_response []) "count" = Some (PInt 0) ∧
  ips_record e [] s !! "allowed_ips" = Some (PList []).
Proof.
  intros Hs Hne Hauth Hdata Hnone. split_and!.
  - apply (set_ips_list sid req e S s d []); try done. by rewrite Hnone.
  - unfold response_field, ips_response, dict_of. simpl. by wf_lookup.
  - unfold ips_record. by wf_lookup.
Qed.

(** X18. Pushing twice keeps the second list only: two authorized [set_ips]
    in a row leave the registry that the second one alone would leave, so
    the addresses of the first push are replaced, not extended. *)
Theorem second_push_replaces_the_first sid req1 req2 e1 e2 (S : registry) s
    d1 d2 l1 l2 :
  S !! sid = Some s → s ≠ ∅ →
  require_admin repr req1 s = Ret () → require_admin repr req2 s = Ret () →
  py_or (get_json_silent req1) (PDict ∅) = PDict d1 →
  py_or (get_json_silent req2) (PDict ∅) = PDict d2 →
  default (PList []) (d1 !! "allowed_ips") = PList l1 →
  default (PList []) (d2 !! "allowed_ips") = PList l2 →
  (serve_all repr [Call (POST_ips sid) req1 e1;
                   Call (POST_ips sid) req2 e2] S).2
  = (serve repr (Call (POST_ips sid) req2 e2) S).2 ∧
  session_field (serve repr (Call (POST_ips sid) req2 e2) S).2 sid
    "allowed_ips" = Some (PList l2).
Proof.
  intros Hs Hne Hauth1 Hauth2 Hd1 Hd2 Hl1 Hl2. simpl.
  rewrite (set_ips_list sid req1 e1 S s d1 l1) by done.
  rewrite (set_ips_list sid req2 e2 _ (ips_record e1 l1 s) d2 l2);
    [|by rewrite lookup_insert_eq|apply insert_nonempty| |done|done].
  - rewrite (set_ips_list sid req2 e2 S s d2 l2) by done. simpl.
    rewrite insert_insert_eq. split.
    + f_equal. unfold ips_record. apply map_eq. intros key.
      destruct (decide (key = "ips_updated")) as [->|?]; [by wf_lookup|].
      destruct (decide (key = "allowed_ips")) as [->|?]; [by wf_lookup|].
      by rewrite !lookup_insert_ne by done.
    + unfold session_field, ips_record. rewrite lookup_insert_eq. simpl.
      by wf_lookup.
  - unfold ips_record. by rewrite !require_admin_insert.
Qed.

(** X19. Ending twice is ending once at the later time: two authorized
    [end_session] in a row leave the registry that the second one alone
    would leave. *)
Theorem second_end_is_the_end sid req e1 e2 (S : registry) s :
  S !! sid = Some s → s ≠ ∅ →
  require_admin repr req s = Ret () →
  (serve_all repr [Call (POST_end sid) req e1;
                   Call (POST_end sid) req e2] S).2
  = (serve repr (Call (POST_end sid) req e2) S).2.
Proof.
  intros Hs Hne Hauth. simpl.
  rewrite (end_session_authorized sid req e1 S s) by done.
  rewrite (end_session_authorized sid req e2 _ (ended_record e1 s));
    [|by rewrite lookup_insert_eq|apply insert_nonempty
     |by rewrite ended_record_authorized].
  rewrite (end_session_authorized sid req e2 S s) by done. simpl.
  rewrite insert_insert_eq. f_equal. unfold ended_record.
  apply map_eq. intros key.
  destruct (decide (key = "ended_at")) as [->|?]; [by wf_lookup|].
  destruct (decide (key = "status")) as [->|?]; [by wf_lookup|].
  by rewrite !lookup_insert_ne by done.
Qed.

(** X20. Under a JSON content type the header is final: when the
    [X-Admin-Token] header is present, not empty and different from the
    session's token, each admin route answers with the 403 response and
    changes nothing, also when the body field [admin_token] or the query
    parameter holds the right token. *)
Theorem wrong_header_is_not_rescued r sid req e (S : registry) s t h :
  admin_route r sid →
  S !! sid = Some s →
  s !! "admin_token" = Some (PStr t) → is_ascii t = true →
  is_json req = true →
  headers req !! "X-Admin-Token" = Some h →
  h ≠ "" → h ≠ t → is_ascii h = true →
  serve repr (Call r req e) S
  = (error_handler 403 "Invalid admin token", S).
Proof.
  intros Hr Hs Htok Hascii Hjson Hhdr Hne Hwrong Hascii'.
  assert (Hauth : require_admin repr req s = abort 403 "Invalid admin token").
  { unfold require_admin, headers_get, item. rewrite Hjson, Hhdr, Htok. simpl.
    destruct (String.eqb_spec h ""); [done|]. simpl.
    unfold compare_digest. rewrite Hascii, Hascii'. simpl.
    by destruct (String.eqb_spec h t). }
  pose proof (has_key_nonempty _ _ _ Htok) as Hnonempty.
  unfold serve. cbn [call_route call_request call_env].
  destruct Hr as [->|[->|[->| ->]]]; unfold view_function;
    [unfold set_ips | unfold end_session | unfold get_logs | unfold get_info];
    erewrite get_session_found by done;
    sm_simpl; rewrite Hauth; unfold handle_exception; simpl;
    by rewrite (insert_id S sid s Hs).
Qed.

End Properties.

(** ** The scenario, call by call *)

(** Evaluates both sides of a goal whose values are small. *)
Ltac compute_eq := vm_compute; reflexivity.

(** A [Forall] over a concrete list, decided by evaluation. *)
Ltac decide_all := apply (bool_decide_unpack _); vm_compute; exact I.

Lemma opened_record : opened !! "A3F7B2C1" = Some (default ∅ (opened !! "A3F7B2C1")).
Proof. reflexivity. Qed.

Lemma closed_record : closed !! "A3F7B2C1" = Some (default ∅ (closed !! "A3F7B2C1")).
Proof. reflexivity. Qed.

Lemma opened_nonempty : default ∅ (opened !! "A3F7B2C1") ≠ ∅.
Proof. apply (has_key_nonempty "status" (PStr "active")). reflexivity. Qed.

Example scenario_policy_push :
  (serve elide_repr
     (Call (POST_ips "A3F7B2C1")
           (admin_json {["allowed_ips" := PList [PStr "10.0.0.0/8"]]})
           (env_at "2024-05-01T09:05:00Z")) opened).1
  = ips_response [PStr "10.0.0.0/8"].
Proof. reflexivity. Qed.

Example scenario_student_reads_after_end :
  status_code (serve elide_repr poll closed).1 = 200 ∧
  response_field (serve elide_repr poll closed).1 "status" = Some (PStr "ended").
Proof. split; compute_eq. Qed.

Example scenario_window_slides :
  let full := <["A3F7B2C1" := <["logs" := PList (replicate 999 PNone)]>
                 (default ∅ (opened !! "A3F7B2C1"))]> opened in
  session_field (serve_all elide_repr three_logs full).2 "A3F7B2C1" "logs"
  = Some (PList (replicate 997 PNone ++ map log_entry three_logs)).
Proof. reflexivity. Qed.

Lemma unknown_session_is_not_found_witness :
  serve elide_repr (Call (GET_info "NOPE0000") admin_plain
                         (env_at "2024-05-01T09:40:00Z")) opened
  = (error_handler 404 "Session not found", opened) ∧
  status_code (serve elide_repr (Call (GET_info "NOPE0000") admin_plain
                         (env_at "2024-05-01T09:40:00Z")) opened).1 = 404 ∧
  (serve elide_repr (Call (GET_info "NOPE0000") admin_plain
                         (env_at "2024-05-01T09:40:00Z")) opened).2 = opened.
Proof.
  apply (unknown_session_is_not_found elide_repr _ "NOPE0000");
    reflexivity.
Defined.

Lemma session_isolation_witness :
  let c := Call (POST_end "A3F7B2C1") (admin_json ∅) (env_at "2024-05-01T10:00:00Z") in
  (serve elide_repr c two_sessions).2 !! "0C9D8E7F" = two_sessions !! "0C9D8E7F" ∧
  (serve elide_repr c two_sessions).1 = (serve elide_repr c opened).1 ∧
  (serve elide_repr c two_sessions).2 !! "A3F7B2C1"
  = (serve elide_repr c opened).2 !! "A3F7B2C1".
Proof.
  apply (session_isolation elide_repr _ "A3F7B2C1" "0C9D8E7F");
    [reflexivity | discriminate | reflexivity].
Defined.

Lemma admin_token_only_in_create_response_witness :
  response_field (serve elide_repr (Call (GET_info "A3F7B2C1") (admin_json ∅)
                    (env_at "2024-05-01T09:40:00Z")) opened).1 "admin_token" = None ∧
  response_field (serve elide_repr (Call POST_session_create anonymous
                    (env_at "2024-05-01T09:00:00Z")) ∅).1 "admin_token"
  = Some (PStr secret).
Proof.
  split.
  - apply (admin_token_only_in_create_response elide_repr (GET_info "A3F7B2C1")).
    discriminate.
  - apply (admin_token_only_in_create_response elide_repr POST_session_create
             anonymous (env_at "2024-05-01T09:00:00Z") ∅); reflexivity.
Defined.

(** C8, the claim as stated fails: a [create_session] that draws the
    identifier of an ended session puts an active record in its place. *)
Lemma create_session_revives_ended_id :
  session_field closed "A3F7B2C1" "status" = Some (PStr "ended") ∧
  created_id (env_at "2024-05-01T11:00:00Z") = "A3F7B2C1" ∧
  session_field
    (serve elide_repr (Call POST_session_create anonymous
                            (env_at "2024-05-01T11:00:00Z")) closed).2
    "A3F7B2C1" "status" = Some (PStr "active").
Proof. repeat split; compute_eq. Qed.

Lemma ended_is_terminal_witness :
  session_field
    (serve_all elide_repr
       (Call POST_session_create anonymous (other_env_at "2024-05-01T11:00:00Z")
        :: Call (POST_ips "A3F7B2C1") (admin_json ∅) (env_at "2024-05-01T11:05:00Z")
        :: thirteen_calls ++ three_logs) closed).2
    "A3F7B2C1" "status" = Some (PStr "ended").
Proof.
  apply (ended_is_terminal elide_repr); [compute_eq|].
  repeat constructor; simpl; discriminate.
Defined.

Lemma end_session_restamps_witness :
  serve elide_repr (Call (POST_end "NOPE0000") (admin_json ∅)
                         (env_at "2024-05-01T10:00:00Z")) opened
  = (error_handler 404 "Session not found", opened) ∧
  ∃ S1 S2,
    serve elide_repr (Call (POST_end "A3F7B2C1") (admin_json ∅)
                           (env_at "2024-05-01T10:00:00Z")) opened
    = (ended_response (env_at "2024-05-01T10:00:00Z"), S1) ∧
    session_field S1 "A3F7B2C1" "status" = Some (PStr "ended") ∧
    session_field S1 "A3F7B2C1" "ended_at" = Some (PStr "2024-05-01T10:00:00Z") ∧
    serve elide_repr (Call (POST_end "A3F7B2C1") (admin_json ∅)
                           (env_at "2024-05-01T10:45:00Z")) S1
    = (ended_response (env_at "2024-05-01T10:45:00Z"), S2) ∧
    session_field S2 "A3F7B2C1" "status" = Some (PStr "ended") ∧
    session_field S2 "A3F7B2C1" "ended_at" = Some (PStr "2024-05-01T10:45:00Z").
Proof.
  split.
  - apply (end_session_restamps elide_repr "NOPE0000" (admin_json ∅)
             (env_at "2024-05-01T10:00:00Z") (env_at "2024-05-01T10:45:00Z") opened).
    reflexivity.
  - apply (end_session_restamps elide_repr "A3F7B2C1" (admin_json ∅)
             (env_at "2024-05-01T10:00:00Z") (env_at "2024-05-01T10:45:00Z") opened)
      with (s := default ∅ (opened !! "A3F7B2C1"));
      [exact opened_record | exact opened_nonempty | reflexivity].
Defined.

(** C6, the claim as stated fails: the session ended at ten o'clock; a second
    [end_session] at a quarter to eleven overwrites [ended_at] and reports the
    new time. *)
Lemma end_session_again_moves_ended_at :
  let again := Call (POST_end "A3F7B2C1") (admin_json ∅)
                    (env_at "2024-05-01T10:45:00Z") in
  session_field closed "A3F7B2C1" "status" = Some (PStr "ended") ∧
  session_field closed "A3F7B2C1" "ended_at" = Some (PStr "2024-05-01T10:00:00Z") ∧
  status_code (serve elide_repr again closed).1 = 200 ∧
  session_field (serve elide_repr again closed).2 "A3F7B2C1" "ended_at"
  = Some (PStr "2024-05-01T10:45:00Z") ∧
  response_field (serve elide_repr again closed).1 "ended_at"
  = Some (PStr "2024-05-01T10:45:00Z").
Proof. repeat split; compute_eq. Qed.

Lemma end_session_on_ended_reports_call_time_witness :
  let again := Call (POST_end "A3F7B2C1") (admin_json ∅)
                    (env_at "2024-05-01T10:45:00Z") in
  (serve elide_repr again closed).1 = ended_response (env_at "2024-05-01T10:45:00Z") ∧
  response_field (ended_response (env_at "2024-05-01T10:45:00Z")) "ended_at"
  = Some (PStr "2024-05-01T10:45:00Z") ∧
  session_field (serve elide_repr again closed).2 "A3F7B2C1" "ended_at"
  = Some (PStr "2024-05-01T10:45:00Z") ∧
  (session_field (serve elide_repr again closed).2 "A3F7B2C1" "ended_at"
   = Some (PStr "2024-05-01T10:00:00Z")
   ↔ PStr "2024-05-01T10:00:00Z" = PStr "2024-05-01T10:45:00Z").
Proof.
  apply (end_session_on_ended_reports_call_time elide_repr "A3F7B2C1"
           (admin_json ∅) (env_at "2024-05-01T10:45:00Z") closed
           (default ∅ (closed !! "A3F7B2C1")) (PStr "2024-05-01T10:00:00Z"));
    [exact closed_record | compute_eq | compute_eq | reflexivity].
Defined.

Lemma set_ips_validates_payload_witness :
  serve elide_repr
    (Call (POST_ips "A3F7B2C1")
          (admin_json {["allowed_ips" := PStr "not-a-list"]})
          (env_at "2024-05-01T09:05:00Z")) opened
  = (error_handler 400 "allowed_ips must be a list", opened).
Proof.
  apply (set_ips_validates_payload elide_repr "A3F7B2C1"
           (admin_json {["allowed_ips" := PStr "not-a-list"]})
           (env_at "2024-05-01T09:05:00Z") opened
           (default ∅ (opened !! "A3F7B2C1"))
           {["allowed_ips" := PStr "not-a-list"]});
    [exact opened_record | exact opened_nonempty | reflexivity | reflexivity
    | reflexivity].
Defined.

Lemma student_count_counts_policy_fetches_witness :
  session_field (serve_all elide_repr thirteen_calls opened).2
    "A3F7B2C1" "student_count" = Some (PInt 3).
Proof.
  assert (Hroutes : Forall (λ c, call_route c = GET_status "A3F7B2C1" ∨
                                 call_route c = GET_ips "A3F7B2C1") thirteen_calls)
    by decide_all.
  assert (Hok : Forall succeeded (serve_all elide_repr thirteen_calls opened).1)
    by decide_all.
  destruct (student_count_counts_policy_fetches elide_repr
              "A3F7B2C1" thirteen_calls opened Hroutes Hok) as (_ & _ & Hfresh).
  apply (Hfresh anonymous (env_at "2024-05-01T09:00:00Z") ∅); reflexivity.
Defined.

Lemma log_keeps_last_1000_witness :
  session_field (serve_all elide_repr three_logs opened).2 "A3F7B2C1" "logs"
  = Some (PList (map log_entry three_logs)).
Proof.
  assert (Hempty : session_field opened "A3F7B2C1" "logs" = Some (PList []))
    by reflexivity.
  assert (Hlen : (length (@nil pyval) ≤ 1000)%nat) by (simpl; lia).
  assert (Hroutes : Forall (λ c, call_route c = POST_log "A3F7B2C1") three_logs)
    by decide_all.
  assert (Hok : Forall succeeded (serve_all elide_repr three_logs opened).1)
    by decide_all.
  destruct (log_keeps_last_1000 elide_repr "A3F7B2C1" three_logs opened []
              Hempty Hlen Hroutes Hok) as (logs & Hlogs & -> & _).
  exact Hlogs.
Defined.

Lemma admin_header_ignored_without_json_witness :
  default ∅ (opened !! "A3F7B2C1") !! "admin_token" = Some (PStr secret) ∧
  headers admin_plain !! "X-Admin-Token" = Some secret ∧
  serve elide_repr (Call (GET_logs "A3F7B2C1") admin_plain
                         (env_at "2024-05-01T09:40:00Z")) opened
  = (error_handler 403 "Invalid admin token", opened).
Proof.
  split; [reflexivity|]. split; [reflexivity|].
  apply (admin_header_ignored_without_json elide_repr (GET_logs "A3F7B2C1")
           "A3F7B2C1" admin_plain (env_at "2024-05-01T09:40:00Z") opened
           (default ∅ (opened !! "A3F7B2C1")) secret);
    [unfold admin_route; auto | exact opened_record | reflexivity | discriminate
    | reflexivity | reflexivity | reflexivity | reflexivity].
Defined.

(** ** The further properties on the scenario *)

Lemma empty_registry_wf : wf_registry ∅.
Proof. intros sid s H. by rewrite lookup_empty in H. Qed.

Lemma opened_wf_registry : wf_registry opened.
Proof. apply (serve_keeps_wf elide_repr), empty_registry_wf. Qed.

Lemma opened_wf : wf_session "A3F7B2C1" (default ∅ (opened !! "A3F7B2C1")).
Proof. apply opened_wf_registry. reflexivity. Qed.

Ltac not_in_list :=
  simpl; repeat (apply not_elem_of_cons; split; [discriminate|]);
  apply not_elem_of_nil.

Lemma route_assigns_only_its_keys_witness :
  session_field
    (serve elide_repr (Call (POST_end "A3F7B2C1") (admin_json ∅)
                            (env_at "2024-05-01T10:00:00Z")) opened).2
    "A3F7B2C1" "allowed_ips"
  = session_field opened "A3F7B2C1" "allowed_ips".
Proof.
  apply (route_assigns_only_its_keys elide_repr _ "A3F7B2C1");
    [reflexivity | right; not_in_list].
Defined.

Lemma creation_fields_are_immutable_witness :
  session_field (serve_all elide_repr busy_day opened).2 "A3F7B2C1" "admin_token"
  = session_field opened "A3F7B2C1" "admin_token".
Proof.
  apply (creation_fields_are_immutable elide_repr).
  - unfold immutable_key. auto.
  - repeat constructor; simpl; discriminate.
Defined.

Lemma reachable_registry_is_well_formed_witness :
  wf_registry
    (serve_all elide_repr
       (Call POST_session_create anonymous (env_at "2024-05-01T09:00:00Z")
        :: busy_day) ∅).2.
Proof.
  apply (reachable_registry_is_well_formed elide_repr), empty_registry_wf.
Defined.

Lemma client_errors_change_nothing_witness :
  (serve elide_repr (Call (GET_ips "A3F7B2C1") stranger
                          (env_at "2024-05-01T09:30:00Z")) opened).2 = opened.
Proof.
  apply (client_errors_change_nothing elide_repr).
  right. left. vm_compute. reflexivity.
Defined.

Lemma get_status_checks_presented_code_witness :
  serve elide_repr (Call (GET_status "A3F7B2C1") stranger
                         (env_at "2024-05-01T09:30:00Z")) opened
  = (error_handler 403 "Invalid session code", opened).
Proof.
  exact (get_status_checks_presented_code elide_repr "A3F7B2C1" stranger
           (env_at "2024-05-01T09:30:00Z") opened
           (default ∅ (opened !! "A3F7B2C1")) "1234"
           opened_record opened_wf eq_refl eq_refl eq_refl).
Defined.

Lemma non_ascii_code_is_a_server_error_witness :
  serve elide_repr (Call (GET_ips "A3F7B2C1") accented_student
                         (env_at "2024-05-01T09:31:00Z")) opened
  = (Response 500 None, opened).
Proof.
  apply (non_ascii_code_is_a_server_error elide_repr _ "A3F7B2C1" _ _ _
           (default ∅ (opened !! "A3F7B2C1")) "1234");
    [unfold student_route; auto | exact opened_record | reflexivity
    | reflexivity].
Defined.

Lemma pushed_policy_is_served_witness :
  ∃ resp,
    (serve_all elide_repr
       [push [PStr "10.0.0.0/8"] "2024-05-01T09:32:00Z"; poll] opened).1
    = [ips_response [PStr "10.0.0.0/8"]; resp] ∧
    status_code resp = 200 ∧
    response_field resp "allowed_ips" = Some (PList [PStr "10.0.0.0/8"]) ∧
    response_field resp "updated_at" = Some (PStr "2024-05-01T09:32:00Z") ∧
    response_field resp "status"
    = default ∅ (opened !! "A3F7B2C1") !! "status".
Proof.
  apply (pushed_policy_is_served elide_repr "A3F7B2C1" _ student
           (env_at "2024-05-01T09:32:00Z") _ opened
           (default ∅ (opened !! "A3F7B2C1"))
           {["allowed_ips" := PList [PStr "10.0.0.0/8"]]});
    [exact opened_record | exact opened_wf | reflexivity | reflexivity
    | reflexivity | reflexivity].
Defined.

Lemma ended_session_still_serves_status_witness :
  ∃ resp,
    (serve_all elide_repr
       [Call (POST_end "A3F7B2C1") (admin_json ∅) (env_at "2024-05-01T10:00:00Z");
        poll] opened).1
    = [ended_response (env_at "2024-05-01T10:00:00Z"); resp] ∧
    status_code resp = 200 ∧
    response_field resp "status" = Some (PStr "ended") ∧
    response_field resp "allowed_ips"
    = default ∅ (opened !! "A3F7B2C1") !! "allowed_ips".
Proof.
  apply (ended_session_still_serves_status elide_repr "A3F7B2C1" _ student);
    [exact opened_record | exact opened_wf | reflexivity | reflexivity].
Defined.

Lemma get_info_shows_all_but_the_token_witness :
  serve elide_repr (Call (GET_info "A3F7B2C1") (admin_json ∅)
                         (env_at "2024-05-01T09:40:00Z")) opened
  = (jsonify (delete "admin_token" (default ∅ (opened !! "A3F7B2C1"))), opened) ∧
  response_field
    (jsonify (delete "admin_token" (default ∅ (opened !! "A3F7B2C1"))))
    "session_code"
  = default ∅ (opened !! "A3F7B2C1") !! "session_code".
Proof.
  apply (get_info_shows_all_but_the_token elide_repr "A3F7B2C1" (admin_json ∅)
           (env_at "2024-05-01T09:40:00Z") opened
           (default ∅ (opened !! "A3F7B2C1")) secret "session_code");
    [exact opened_record | reflexivity | discriminate | reflexivity
    | left; split; reflexivity].
Defined.

Lemma admin_reads_the_log_window_witness :
  (serve elide_repr (Call (GET_logs "A3F7B2C1") (admin_json ∅)
                          (env_at "2024-05-01T09:40:00Z"))
     (serve_all elide_repr three_logs opened).2).1
  = logs_response "A3F7B2C1" (default ∅ (opened !! "A3F7B2C1"))
      (lastn 1000 ([] ++ map log_entry three_logs)) ∧
  length (lastn 1000 ([] ++ map log_entry three_logs))
  = ((length (@nil pyval) + length three_logs) `min` 1000)%nat.
Proof.
  apply (admin_reads_the_log_window elide_repr "A3F7B2C1" (admin_json ∅)
           (env_at "2024-05-01T09:40:00Z") three_logs opened
           (default ∅ (opened !! "A3F7B2C1")) []);
    [exact opened_record | exact opened_wf | reflexivity | reflexivity
    | decide_all | decide_all].
Defined.

Lemma created_identifiers_have_their_format_witness :
  ∃ id code,
    response_field (serve elide_repr (Call POST_session_create anonymous
                      (env_at "2024-05-01T09:00:00Z")) ∅).1
      "session_id" = Some (PStr id) ∧
    response_field (serve elide_repr (Call POST_session_create anonymous
                      (env_at "2024-05-01T09:00:00Z")) ∅).1
      "session_code" = Some (PStr code) ∧
    String.length id = 8%nat ∧ upper id = id ∧
    String.length code = 4%nat ∧ is_digits code = true.
Proof.
  apply (created_identifiers_have_their_format elide_repr);
    [simpl; lia | simpl; lia | reflexivity].
Defined.

Lemma created_credentials_open_the_session_witness :
  ∃ poll info,
    (serve_all elide_repr
       [Call POST_session_create anonymous (env_at "2024-05-01T09:00:00Z");
        Call (GET_status (created_id (env_at "2024-05-01T09:00:00Z"))) student
             (env_at "2024-05-01T09:10:00Z");
        Call (GET_info (created_id (env_at "2024-05-01T09:00:00Z")))
             (admin_json ∅) (env_at "2024-05-01T09:40:00Z")] ∅).1
    = [(serve elide_repr (Call POST_session_create anonymous
                            (env_at "2024-05-01T09:00:00Z")) ∅).1; poll; info] ∧
    status_code poll = 200 ∧
    response_field poll "status" = Some (PStr "active") ∧
    response_field poll "allowed_ips" = Some (PList []) ∧
    response_field poll "updated_at"
    = Some (PStr (now_iso (env_at "2024-05-01T09:00:00Z"))) ∧
    status_code info = 200 ∧
    response_field info "session_code" = Some (PStr (presented_code student)) ∧
    response_field info "admin_token" = None.
Proof.
  apply (created_credentials_open_the_session elide_repr);
    [reflexivity | reflexivity | discriminate | reflexivity
    | left; split; reflexivity].
Defined.

Lemma array_body_is_not_an_object : non_object_body array_body.
Proof.
  split; [reflexivity|]. exists (PList [PInt 1]).
  split_and!; [reflexivity | reflexivity | discriminate].
Qed.

Lemma admin_array_is_not_an_object : non_object_body admin_array.
Proof.
  split; [reflexivity|]. exists (PList [PInt 1]).
  split_and!; [reflexivity | reflexivity | discriminate].
Qed.

Lemma non_object_body_is_a_server_error_witness :
  serve elide_repr (Call POST_session_create array_body
                         (env_at "2024-05-01T09:00:00Z")) opened
  = (Response 500 None, opened) ∧
  serve elide_repr (Call (POST_log "A3F7B2C1") array_body
                         (env_at "2024-05-01T09:11:00Z")) opened
  = (Response 500 None, opened) ∧
  serve elide_repr (Call (POST_ips "A3F7B2C1") admin_array
                         (env_at "2024-05-01T09:32:00Z")) opened
  = (Response 500 None, opened).
Proof.
  destruct (non_object_body_is_a_server_error elide_repr array_body
              (env_at "2024-05-01T09:00:00Z") opened
              array_body_is_not_an_object) as (Hcreate & _ & _).
  destruct (non_object_body_is_a_server_error elide_repr array_body
              (env_at "2024-05-01T09:11:00Z") opened
              array_body_is_not_an_object) as (_ & Hlog & _).
  destruct (non_object_body_is_a_server_error elide_repr admin_array
              (env_at "2024-05-01T09:32:00Z") opened
              admin_array_is_not_an_object) as (_ & _ & Hips).
  split_and!; [exact Hcreate | |].
  - apply (Hlog "A3F7B2C1" (default ∅ (opened !! "A3F7B2C1")));
      [exact opened_record | exact opened_nonempty | reflexivity].
  - apply (Hips "A3F7B2C1" (default ∅ (opened !! "A3F7B2C1")));
      [exact opened_record | exact opened_nonempty | reflexivity].
Defined.

Lemma sessions_are_only_added_witness :
  dom (serve elide_repr poll opened).2 = dom opened ∧
  dom two_sessions = {[ "0C9D8E7F" ]} ∪ dom opened ∧
  dom opened ⊆ dom (serve_all elide_repr busy_day opened).2.
Proof.
  destruct (sessions_are_only_added elide_repr poll busy_day anonymous
              (env_at "2024-05-01T09:00:00Z") opened) as (Hpoll & _ & Hall & _).
  destruct (sessions_are_only_added elide_repr
              (Call POST_session_create anonymous
                    (other_env_at "2024-05-01T09:30:00Z"))
              [] anonymous (env_at "2024-05-01T09:00:00Z") opened)
    as (_ & Hcreate & _).
  split_and!.
  - apply Hpoll. discriminate.
  - apply Hcreate; reflexivity.
  - exact Hall.
Defined.

Lemma student_count_counts_successful_fetches_witness :
  session_field (serve_all elide_repr busy_day opened).2
    "A3F7B2C1" "student_count"
  = Some (PInt (0 + Z.of_nat
       (counted_fetches "A3F7B2C1" busy_day
          (serve_all elide_repr busy_day opened).1))) ∧
  counted_fetches "A3F7B2C1" busy_day (serve_all elide_repr busy_day opened).1
  = 4%nat.
Proof.
  split; [|vm_compute; reflexivity].
  apply (student_count_counts_successful_fetches elide_repr);
    [exact opened_wf_registry | reflexivity |].
  repeat constructor; simpl; discriminate.
Defined.

Lemma post_log_defaults_missing_fields_witness :
  serve elide_repr (Call (POST_log "A3F7B2C1") (student_event "focus-lost")
                         (env_at "2024-05-01T09:11:00Z")) opened
  = (jsonify (dict_of [("message", PStr "Logged")]),
     <["A3F7B2C1" := <["logs" := PList (lastn 1000
         ([] ++ [entry_of (env_at "2024-05-01T09:11:00Z")
                   {["student_id" := PStr "s-17";
                     "event" := PStr "focus-lost"]}]))]>
       (default ∅ (opened !! "A3F7B2C1"))]> opened) ∧
  serve elide_repr (Call (POST_log "A3F7B2C1") student
                         (env_at "2024-05-01T09:12:00Z")) opened
  = (jsonify (dict_of [("message", PStr "Logged")]),
     <["A3F7B2C1" := <["logs" := PList (lastn 1000
         ([] ++ [blank_entry (env_at "2024-05-01T09:12:00Z")]))]>
       (default ∅ (opened !! "A3F7B2C1"))]> opened).
Proof.
  destruct (post_log_defaults_missing_fields elide_repr "A3F7B2C1"
              (student_event "focus-lost")
              (env_at "2024-05-01T09:11:00Z") opened
              (default ∅ (opened !! "A3F7B2C1")) []
              opened_record eq_refl eq_refl) as [Hobject _].
  destruct (post_log_defaults_missing_fields elide_repr "A3F7B2C1" student
              (env_at "2024-05-01T09:12:00Z") opened
              (default ∅ (opened !! "A3F7B2C1")) []
              opened_record eq_refl eq_refl) as [_ Hblank].
  split.
  - apply Hobject; [reflexivity | reflexivity | apply insert_non_empty].
  - apply Hblank. left. reflexivity.
Defined.

Lemma set_ips_without_payload_clears_witness :
  serve elide_repr (Call (POST_ips "A3F7B2C1") (admin_json ∅)
                         (env_at "2024-05-01T09:50:00Z"))
        (serve elide_repr (push [PStr "10.0.0.0/8"] "2024-05-01T09:32:00Z")
               opened).2
  = (ips_response [],
     <["A3F7B2C1" := ips_record (env_at "2024-05-01T09:50:00Z") []
         (ips_record (env_at "2024-05-01T09:32:00Z") [PStr "10.0.0.0/8"]
            (default ∅ (opened !! "A3F7B2C1")))]>
       (serve elide_repr (push [PStr "10.0.0.0/8"] "2024-05-01T09:32:00Z")
              opened).2) ∧
  response_field (ips_response []) "count" = Some (PInt 0) ∧
  ips_record (env_at "2024-05-01T09:50:00Z") []
    (ips_record (env_at "2024-05-01T09:32:00Z") [PStr "10.0.0.0/8"]
       (default ∅ (opened !! "A3F7B2C1"))) !! "allowed_ips" = Some (PList []).
Proof.
  apply (set_ips_without_payload_clears elide_repr "A3F7B2C1" (admin_json ∅)
           (env_at "2024-05-01T09:50:00Z") _
           (ips_record (env_at "2024-05-01T09:32:00Z") [PStr "10.0.0.0/8"]
              (default ∅ (opened !! "A3F7B2C1"))) ∅);
    [reflexivity | apply insert_non_empty | reflexivity | reflexivity
    | reflexivity].
Defined.

Lemma second_push_replaces_the_first_witness :
  (serve_all elide_repr
     [push [PStr "10.0.0.0/8"] "2024-05-01T09:32:00Z";
      push [PStr "192.168.1.0/24"] "2024-05-01T09:45:00Z"] opened).2
  = (serve elide_repr (push [PStr "192.168.1.0/24"] "2024-05-01T09:45:00Z")
           opened).2 ∧
  session_field
    (serve elide_repr (push [PStr "192.168.1.0/24"] "2024-05-01T09:45:00Z")
           opened).2 "A3F7B2C1" "allowed_ips"
  = Some (PList [PStr "192.168.1.0/24"]).
Proof.
  apply (second_push_replaces_the_first elide_repr "A3F7B2C1" _ _ _ _ opened
           (default ∅ (opened !! "A3F7B2C1"))
           {["allowed_ips" := PList [PStr "10.0.0.0/8"]]}
           {["allowed_ips" := PList [PStr "192.168.1.0/24"]]}
           [PStr "10.0.0.0/8"] [PStr "192.168.1.0/24"]);
    [exact opened_record | exact opened_nonempty | reflexivity | reflexivity
    | reflexivity | reflexivity | reflexivity | reflexivity].
Defined.

Lemma second_end_is_the_end_witness :
  (serve_all elide_repr
     [Call (POST_end "A3F7B2C1") (admin_json ∅) (env_at "2024-05-01T10:00:00Z");
      Call (POST_end "A3F7B2C1") (admin_json ∅) (env_at "2024-05-01T10:45:00Z")]
     opened).2
  = (serve elide_repr (Call (POST_end "A3F7B2C1") (admin_json ∅)
                            (env_at "2024-05-01T10:45:00Z")) opened).2.
Proof.
  apply (second_end_is_the_end elide_repr "A3F7B2C1" (admin_json ∅) _ _ opened
           (default ∅ (opened !! "A3F7B2C1")));
    [exact opened_record | exact opened_nonempty | reflexivity].
Defined.

Lemma wrong_header_is_not_rescued_witness :
  serve elide_repr (Call (POST_end "A3F7B2C1") mixed_tokens
                         (env_at "2024-05-01T10:00:00Z")) opened
  = (error_handler 403 "Invalid admin token", opened).
Proof.
  apply (wrong_header_is_not_rescued elide_repr (POST_end "A3F7B2C1")
           "A3F7B2C1" mixed_tokens (env_at "2024-05-01T10:00:00Z") opened
           (default ∅ (opened !! "A3F7B2C1")) secret "guess");
    [unfold admin_route; auto | exact opened_record | reflexivity | reflexivity
    | reflexivity | reflexivity | discriminate | discriminate | reflexivity].
Defined.
